(** * AgriGrow: the map client's query controller

    A shallow embedding of the client script [src/file.js]: the geofence
    tests, the city registry, the free-text search ([searchLocation]), the
    popup presenter ([createPopupContent]), the fallback synthesizer
    ([createDemoData]) and the click handler with its [try]/[catch].

    Conventions of the model.
    - A JavaScript number is a rational ([Q]); the coordinates and the
      payload numbers of this program are finite.  A number stands for the
      binary64 value of that decimal spelling: the literals of the script
      denote themselves, comparisons are those of the rationals, and the
      rounding [parseFloat] makes when it reads a decimal text is the
      engine's [Number_ofDecimal].  The sums and products of the script
      (the synthesized draws, the period of a timer) are taken exactly;
      what is stated about them is what rounding keeps.  [NaN] only arises
      from [parseFloat] and is the [None] of an [option Q].
    - The text of the search box is the list of its UTF-16 code units
      ([list N]); [\d], [\s] and [trim] are the classes of the language,
      and [toLowerCase] is exact on every code unit whose lower case is
      ASCII.  The other strings of the script (property names, messages,
      city names, all ASCII) are [string]s.
    - A value that may come from [JSON.parse] is a [value]; an object is an
      association list in which a later binding of a key overrides an
      earlier one, as [JSON.parse] does.
    - A thrown exception is the [Throw] of the [exc] monad.
    - The interaction with the map widget, the browser and the network is
      a list of [action]s, in program order. *)

From Stdlib Require Import QArith String List Bool Lia Ascii Arith NArith.

Set Warnings "-register-all".

Import ListNotations.

Local Open Scope list_scope.
Local Open Scope string_scope.

(* ================================================================== *)
(** * Part I: the program                                              *)
(* ================================================================== *)

(** ** Numbers *)

Module Num.

(** [x < y] on numbers; [Qle_bool] of the library is [x <= y]. *)
Definition ltb (x y : Q) : bool :=
  match Qcompare x y with Lt => true | _ => false end.

Definition leb (x y : Q) : bool := Qle_bool x y.

(** [x > y] and [x >= y] are the same comparisons with the operands
    swapped. *)
Definition gtb (x y : Q) : bool := ltb y x.
Definition geb (x y : Q) : bool := leb y x.

Definition ofNat (n : nat) : Q := inject_Z (Z.of_nat n).

End Num.

(** ** Code units and texts *)

Module Str.

(** The code units of a literal of the script. *)
Definition units (s : string) : list N :=
  List.map N_of_ascii (list_ascii_of_string s).

Definition between (lo hi c : N) : bool := N.leb lo c && N.leb c hi.

(** [\d]: the ten ASCII digits. *)
Definition isDigit (c : N) : bool := between 48 57 c.

(** [\s], which is also what [trim] strips: TAB, LF, VT, FF, CR, SP,
    U+00A0, U+1680, U+2000 to U+200A, U+2028, U+2029, U+202F, U+205F,
    U+3000 and U+FEFF. *)
Definition isSpace (c : N) : bool :=
  between 9 13 c || N.eqb c 32 || N.eqb c 160 || N.eqb c 5760
  || between 8192 8202 c || N.eqb c 8232 || N.eqb c 8233
  || N.eqb c 8239 || N.eqb c 8287 || N.eqb c 12288 || N.eqb c 65279.

Definition isUpper (c : N) : bool := between 65 90 c.

(** The lower case of a code unit: an ASCII capital gives its small
    letter and U+212A (KELVIN SIGN) gives [k]; these are the only code
    units with an ASCII lower case.  Every other unit is kept: it has no
    case, or its lower case holds a unit outside ASCII, as it does itself
    (so neither occurs in an ASCII text). *)
Definition lowerChar (c : N) : N :=
  if isUpper c then (c + 32)%N
  else if N.eqb c 8490 then 107%N
  else c.

(** [String.prototype.toLowerCase] *)
Definition toLowerCase (s : list N) : list N := List.map lowerChar s.

Fixpoint allb (p : N -> bool) (s : list N) : bool :=
  match s with
  | [] => true
  | c :: r => p c && allb p r
  end.

(** The longest prefix of [s] whose units satisfy [p], and the rest: what
    a greedy [p*] consumes. *)
Fixpoint span (p : N -> bool) (s : list N) : list N * list N :=
  match s with
  | [] => ([], [])
  | c :: r =>
      if p c then let (a, b) := span p r in (c :: a, b)
      else ([], s)
  end.

Fixpoint dropWhile (p : N -> bool) (s : list N) : list N :=
  match s with
  | [] => []
  | c :: r => if p c then dropWhile p r else s
  end.

(** Removes the units satisfying [p] from the end of [s]. *)
Fixpoint dropWhileEnd (p : N -> bool) (s : list N) : list N :=
  match s with
  | [] => []
  | c :: r =>
      match dropWhileEnd p r with
      | [] => if p c then [] else [c]
      | r' => c :: r'
      end
  end.

(** [String.prototype.trim] *)
Definition trim (s : list N) : list N :=
  dropWhileEnd isSpace (dropWhile isSpace s).

(** [!s]: the empty text is the only falsy one. *)
Definition isEmpty (s : list N) : bool :=
  match s with
  | [] => true
  | _ :: _ => false
  end.

(** [s.startsWith(t)] *)
Fixpoint startsWith (t s : list N) : bool :=
  match t, s with
  | [], _ => true
  | a :: t', b :: s' => N.eqb a b && startsWith t' s'
  | _ :: _, [] => false
  end.

(** The rest of [s] after its first unit, when that unit is [c]: what an
    optional literal [c?] consumes. *)
Definition stripChar (c : N) (s : list N) : option (list N) :=
  match s with
  | d :: r => if N.eqb c d then Some r else None
  | [] => None
  end.

(** [String.prototype.includes]: [t] occurs in [s] at some position. *)
Fixpoint includes (s t : list N) : bool :=
  startsWith t s ||
  match s with
  | [] => false
  | _ :: r => includes r t
  end.

(** The units of the punctuation of the search pattern. *)
Definition minus : N := 45.
Definition dot : N := 46.
Definition comma : N := 44.

End Str.

(** ** Exceptions *)

Inductive error : Type :=
| TypeError                 (* a property read on null/undefined, a call of a non-function *)
| NetworkError              (* the promise of [fetch] is rejected *)
| SyntaxError               (* the promise of [response.json()] is rejected *)
| UserError (msg : string). (* [throw new Error(msg)] *)

Inductive exc (A : Type) : Type :=
| Ok (a : A)
| Throw (e : error).

Arguments Ok {A} a.
Arguments Throw {A} e.

Definition bind {A B : Type} (m : exc A) (k : A -> exc B) : exc B :=
  match m with
  | Ok a => k a
  | Throw e => Throw e
  end.

Notation "x <- m ;; k" := (bind m (fun x => k))
  (at level 61, m at next level, right associativity).

(** [Array.prototype.map] with a callback that may throw: the elements are
    visited in order and the first exception ends the loop. *)
Fixpoint mapM {A B : Type} (f : A -> exc B) (l : list A) : exc (list B) :=
  match l with
  | [] => Ok []
  | x :: r => y <- f x ;; ys <- mapM f r ;; Ok (y :: ys)
  end.

(** ** Values *)

Inductive value : Type :=
| VUndefined
| VNull
| VBool (b : bool)
| VNum (q : Q)
| VStr (s : string)
| VArr (items : list value)
| VObj (fields : list (string * value)).

(** The operations of the language that the script leaves to the engine
    and that have no exact counterpart on rationals: the decimal printing of
    a number, [Number.prototype.toFixed], whether the number a string
    converts to is positive, and the number a decimal text is read as (the
    nearest binary64 value, a number of the model being the decimal that
    spells it). *)
Class Builtins : Type := {
  Number_toString : Q -> string;
  Number_toFixed : Q -> nat -> string;
  String_toNumber_positive : string -> bool;
  Number_ofDecimal : Q -> Q
}.

Module JS.

(** The binding of [k] in an object: the last one. *)
Fixpoint lookup (k : string) (fs : list (string * value)) : option value :=
  match fs with
  | [] => None
  | (k', v) :: r =>
      match lookup k r with
      | Some w => Some w
      | None => if String.eqb k k' then Some v else None
      end
  end.

Definition hasKey (k : string) (fs : list (string * value)) : bool :=
  match lookup k fs with Some _ => true | None => false end.

(** [v.k] for the property names the script reads: the data fields of
    the payload and [length].  None of them is a method of a prototype,
    so a primitive or an array without the property gives [undefined]. *)
Definition get (v : value) (k : string) : exc value :=
  match v with
  | VUndefined | VNull => Throw TypeError
  | VBool _ | VNum _ => Ok VUndefined
  | VStr s =>
      Ok (if String.eqb k "length" then VNum (Num.ofNat (String.length s))
          else VUndefined)
  | VArr l =>
      Ok (if String.eqb k "length" then VNum (Num.ofNat (List.length l))
          else VUndefined)
  | VObj fs =>
      Ok (match lookup k fs with Some w => w | None => VUndefined end)
  end.

(** ToBoolean *)
Definition truthy (v : value) : bool :=
  match v with
  | VUndefined | VNull => false
  | VBool b => b
  | VNum q => negb (Qeq_bool q 0)
  | VStr s => negb (String.eqb s "")
  | VArr _ | VObj _ => true
  end.

Section WithBuiltins.
Context {B : Builtins}.

(** ToString, as a template hole [${v}] applies it.  An array prints
    its elements separated by commas, [null] and [undefined] elements
    as the empty string; an object prints as [[object Object]] unless
    an own (hence non-callable) [toString] shadows the inherited one,
    in which case the conversion throws. *)
Fixpoint toStr (v : value) : exc string :=
  match v with
  | VUndefined => Ok "undefined"
  | VNull => Ok "null"
  | VBool true => Ok "true"
  | VBool false => Ok "false"
  | VNum q => Ok (Number_toString q)
  | VStr s => Ok s
  | VArr l =>
      ss <- (fix items (l : list value) : exc (list string) :=
               match l with
               | [] => Ok []
               | x :: r =>
                   s <- match x with
                        | VUndefined | VNull => Ok ""
                        | _ => toStr x
                        end ;;
                   ss <- items r ;;
                   Ok (s :: ss)
               end) l ;;
      Ok (String.concat "," ss)
  | VObj fs =>
      if hasKey "toString" fs then Throw TypeError
      else Ok "[object Object]"
  end.

(** The text of an array element inside [join]. *)
Definition itemStr (x : value) : exc string :=
  match x with
  | VUndefined | VNull => Ok ""
  | _ => toStr x
  end.

(** [v.join(sep)]: only an array has a callable [join]. *)
Definition join (v : value) (sep : string) : exc string :=
  match v with
  | VArr l => ss <- mapM itemStr l ;; Ok (String.concat sep ss)
  | _ => Throw TypeError
  end.

(** [v.toFixed(d)]: only a number has a callable [toFixed]. *)
Definition toFixed (v : value) (d : nat) : exc string :=
  match v with
  | VNum q => Ok (Number_toFixed q d)
  | _ => Throw TypeError
  end.

(** [v > 0]: the operand is converted to a number; [undefined], a
    non-numeric string and an object convert to [NaN], [null] to 0,
    [true] to 1. *)
Definition gtZero (v : value) : exc bool :=
  match v with
  | VUndefined | VNull => Ok false
  | VBool b => Ok b
  | VNum q => Ok (Num.gtb q 0)
  | VStr s => Ok (String_toNumber_positive s)
  | VArr _ => s <- toStr v ;; Ok (String_toNumber_positive s)
  | VObj fs => if hasKey "toString" fs then Throw TypeError else Ok false
  end.

End WithBuiltins.

(** [v.map(f)]: only an array has a callable [map]. *)
Definition map {A : Type} (v : value) (f : value -> exc A)
  : exc (list A) :=
  match v with
  | VArr l => mapM f l
  | _ => Throw TypeError
  end.

End JS.

(** ** Regular expressions

    The backtracking matcher of the language, for the operators the script
    uses: a literal character, a character class, concatenation, the greedy
    [?], [*] and [+], and a capturing group.  A matcher receives the rest
    of the input, the captures made so far and a continuation; a greedy
    operator tries its longest alternative first and falls back to the
    shorter ones when the continuation fails. *)

Module Regex.

Inductive regex : Type :=
| Chr (c : N)
| Cls (p : N -> bool)
| Seq (a b : regex)
| Opt (a : regex)
| Star (a : regex)
| Grp (n : nat) (a : regex).

Definition Plus (a : regex) : regex := Seq a (Star a).

Definition captures : Type := list (nat * list N).

Definition cont : Type := list N -> captures -> option captures.

(** The text between the start [s] of a group and the suffix [t] of [s]
    at which the group ends. *)
Definition consumed (s t : list N) : list N :=
  List.firstn (List.length s - List.length t) s.

(** The loop of [*] over the matcher [step] of its operand: one more
    iteration is tried first, the continuation [k] after it.  An iteration
    that consumes nothing is rejected, so [length s] is fuel enough. *)
Fixpoint starLoop (step : list N -> captures -> cont -> option captures)
  (k : cont) (fuel : nat) (s : list N) (caps : captures)
  : option captures :=
  match fuel with
  | O => k s caps
  | S fuel' =>
      match step s caps
              (fun t caps' =>
                 if Nat.ltb (List.length t) (List.length s)
                 then starLoop step k fuel' t caps' else None) with
      | Some m => Some m
      | None => k s caps
      end
  end.

Fixpoint matcher (r : regex) (s : list N) (caps : captures) (k : cont)
  {struct r} : option captures :=
  match r with
  | Chr c =>
      match s with
      | d :: t => if N.eqb c d then k t caps else None
      | [] => None
      end
  | Cls p =>
      match s with
      | d :: t => if p d then k t caps else None
      | [] => None
      end
  | Seq a b => matcher a s caps (fun t caps' => matcher b t caps' k)
  | Opt a =>
      match matcher a s caps k with
      | Some m => Some m
      | None => k s caps
      end
  | Star a => starLoop (matcher a) k (List.length s) s caps
  | Grp n a =>
      matcher a s caps (fun t caps' => k t ((n, consumed s t) :: caps'))
  end.

(** [s.match(r)] for a pattern without the [g] flag: the match at the
    leftmost position that has one. *)
Fixpoint exec (r : regex) (s : list N) : option captures :=
  match matcher r s [] (fun _ caps => Some caps) with
  | Some m => Some m
  | None =>
      match s with
      | [] => None
      | _ :: t => exec r t
      end
  end.

(** [m[n]]: the text of group [n], [None] for [undefined]. *)
Fixpoint group (n : nat) (caps : captures) : option (list N) :=
  match caps with
  | [] => None
  | (i, t) :: r => if Nat.eqb i n then Some t else group n r
  end.

(** A greedy [p*] over a character class, written by recursion on the
    input: the longest run is tried first, then the shorter ones. *)
Fixpoint greedy (p : N -> bool) (k : cont) (s : list N)
  (caps : captures) : option captures :=
  match s with
  | c :: r =>
      if p c
      then match greedy p k r caps with
           | Some m => Some m
           | None => k s caps
           end
      else k s caps
  | [] => k [] caps
  end.

(** Does [s] start with a character of the class [p]. *)
Definition headIs (p : N -> bool) (s : list N) : bool :=
  match s with
  | c :: _ => p c
  | [] => false
  end.

End Regex.

(** ** GeoBounds: the two geofence tests *)

Module GeoBounds.

Local Open Scope Q_scope.

(** The guard of the click handler: true when the click is rejected. *)
Definition clickOutside (lat lon : Q) : bool :=
  Num.ltb lat 23.69 || Num.gtb lat 36.98
  || Num.ltb lon 60.87 || Num.gtb lon 75.85.

(** The condition of [searchLocation]: true when the pair is accepted. *)
Definition searchInside (lat lon : Q) : bool :=
  Num.geb lat 23.69 && Num.leb lat 36.98
  && Num.geb lon 60.87 && Num.leb lon 75.85.

End GeoBounds.

(** ** CityRegistry *)

Record city : Type := {
  name : string;
  lat : Q;
  lon : Q;
  province : string
}.

Definition majorCities : list city :=
  [ {| name := "Karachi"; lat := 24.8607; lon := 67.0011; province := "Sindh" |};
    {| name := "Lahore"; lat := 31.5804; lon := 74.3587; province := "Punjab" |};
    {| name := "Faisalabad"; lat := 31.4504; lon := 73.1350; province := "Punjab" |};
    {| name := "Rawalpindi"; lat := 33.5651; lon := 73.0169; province := "Punjab" |};
    {| name := "Multan"; lat := 30.1575; lon := 71.5249; province := "Punjab" |};
    {| name := "Hyderabad"; lat := 25.3960; lon := 68.3578; province := "Sindh" |};
    {| name := "Peshawar"; lat := 34.0151; lon := 71.5249; province := "KPK" |};
    {| name := "Quetta"; lat := 30.1798; lon := 66.9750; province := "Balochistan" |} ].

(** ** The search pattern and [parseFloat] *)

Module Search.

Import Regex.
Local Open Scope list_scope.

(** [-?\d+\.?\d*] *)
Definition numberPattern : regex :=
  Seq (Opt (Chr Str.minus))
    (Seq (Plus (Cls Str.isDigit))
       (Seq (Opt (Chr Str.dot)) (Star (Cls Str.isDigit)))).

(** The pattern of [searchLocation]: group 1, a comma, [\s*], group 2,
    both groups being [numberPattern]. *)
Definition coordPattern : regex :=
  Seq (Grp 1 numberPattern)
    (Seq (Chr Str.comma)
       (Seq (Star (Cls Str.isSpace)) (Grp 2 numberPattern))).

(** [query.match(/.../)] *)
Definition coordMatch (query : list N) : option captures :=
  exec coordPattern query.

(** The value of a text of decimal digits, most significant first. *)
Fixpoint digitsValue (acc : Z) (s : list N) : Z :=
  match s with
  | [] => acc
  | c :: r => digitsValue (10 * acc + Z.of_N (c - 48)) r
  end.

(** The decimal a text starts with: an optional minus sign, digits, then
    optionally a point and digits; what follows is ignored.  [None] when
    the text does not start this way. *)
Definition decimalValue (s : list N) : option Q :=
  let (neg, s1) :=
    match Str.stripChar Str.minus s with
    | Some r => (true, r)
    | None => (false, s)
    end in
  let (ip, s2) := Str.span Str.isDigit s1 in
  let fp :=
    match Str.stripChar Str.dot s2 with
    | Some r => fst (Str.span Str.isDigit r)
    | None => []
    end in
  match ip with
  | [] => None
  | _ =>
      let m :=
        Qplus (inject_Z (digitsValue 0 ip))
          (Qmake (digitsValue 0 fp)
             (Pos.pow 10 (Pos.of_nat (List.length fp))))
      in
      Some (if neg then Qopp m else m)
  end.

(** [parseFloat] on the text of a capture group of the pattern: the
    decimal the text spells, read as a number by the engine (rounded to
    binary64).  A text that does not start with such a decimal is read as
    [NaN] ([None]); the other spellings [parseFloat] accepts (leading
    blanks, a plus sign, a leading point, an exponent, [Infinity]) cannot
    be captured by the pattern. *)
Definition parseFloat {B : Builtins} (s : list N) : option Q :=
  match decimalValue s with
  | Some q => Some (Number_ofDecimal q)
  | None => None
  end.

(** [parseFloat(m[n])]; an [undefined] group converts to [NaN]. *)
Definition parseGroup {B : Builtins} (n : nat) (m : captures)
  : option Q :=
  match group n m with
  | Some t => parseFloat t
  | None => None
  end.

(** The pattern read deterministically, as one left-to-right scan in which
    every greedy operator keeps its longest alternative: the text of the
    number at the head of [s] and the rest of [s] after it. *)
Definition scanUnsigned (s : list N) : option (list N * list N) :=
  let (ds, s2) := Str.span Str.isDigit s in
  match ds with
  | [] => None
  | _ =>
      let (dot, s3) :=
        match Str.stripChar Str.dot s2 with
        | Some r => ([Str.dot], r)
        | None => ([], s2)
        end in
      let (fs, s4) := Str.span Str.isDigit s3 in
      Some (ds ++ dot ++ fs, s4)
  end.

Definition scanNumber (s : list N) : option (list N * list N) :=
  match Str.stripChar Str.minus s with
  | Some r =>
      match scanUnsigned r with
      | Some (g, rest) => Some ([Str.minus] ++ g, rest)
      | None => None
      end
  | None => scanUnsigned s
  end.

(** A match of the whole pattern at the head of [s]: the texts of the two
    groups. *)
Definition scanAt (s : list N) : option (list N * list N) :=
  match scanNumber s with
  | Some (g1, rest) =>
      match Str.stripChar Str.comma rest with
      | Some r =>
          match scanNumber (snd (Str.span Str.isSpace r)) with
          | Some (g2, _) => Some (g1, g2)
          | None => None
          end
      | None => None
      end
  | None => None
  end.

(** The leftmost match. *)
Fixpoint scan (s : list N) : option (list N * list N) :=
  match scanAt s with
  | Some m => Some m
  | None =>
      match s with
      | [] => None
      | _ :: r => scan r
      end
  end.

(** The captures of a match whose groups have the texts [g1] and [g2]. *)
Definition capturesOf (m : list N * list N) : captures :=
  [(2%nat, snd m); (1%nat, fst m)].

(** The characters a number of the pattern is made of, apart from its
    sign. *)
Definition digitOrDot (c : N) : bool :=
  Str.isDigit c || N.eqb Str.dot c.

(** A continuation for which the greedy choices of the number pattern are
    final: it fails on every input that starts with a digit or a point (so
    no shorter number can be followed by a match), or it never fails. *)
Definition committed (k : cont) : Prop :=
  (forall x caps, headIs digitOrDot x = true -> k x caps = None)
  \/ (forall x caps, k x caps <> None).

(** The rest of [u] after an optional point and the digits that follow. *)
Definition afterFraction (u : list N) : list N :=
  snd (Str.span Str.isDigit
         (match Str.stripChar Str.dot u with Some r => r | None => u end)).

(** The continuation of a whole pattern: the match is found. *)
Definition final : cont := fun _ caps => Some caps.

(** The texts the number pattern describes: one or more digits and
    optionally a point followed by digits, after an optional minus sign. *)
Definition unsignedText (u : list N) : Prop :=
  exists ds frac : list N,
    u = ds ++ frac
    /\ headIs Str.isDigit ds = true
    /\ Str.allb Str.isDigit ds = true
    /\ (frac = [] \/
        exists fs, frac = [Str.dot] ++ fs /\ Str.allb Str.isDigit fs = true).

(** The texts of the number pattern, with their optional sign. *)
Definition numberText (g : list N) : Prop :=
  unsignedText g \/ exists u, g = [Str.minus] ++ u /\ unsignedText u.

(** [s] holds, after the prefix [pre], a text of the whole pattern whose
    numbers are [a] and [b]: [a], a comma, whitespace, [b]. *)
Definition pairAt (s pre a b : list N) : Prop :=
  exists ws post : list N,
    s = pre ++ a ++ [Str.comma] ++ ws ++ b ++ post
    /\ numberText a /\ Str.allb Str.isSpace ws = true /\ numberText b.

End Search.

(** ** The popup

    [createPopupContent] returns one template string.  The model keeps what
    the template computes and drops its fixed markup: a field per hole, in
    the order of the template, and for the crop section either the entries
    produced by [recommendations.map] (which the script then concatenates)
    or the text of the fixed placeholder. *)

Record cropEntry : Type := {
  entry_name : string;         (* crop.crop_name *)
  entry_score : string;        (* crop.suitability_score *)
  entry_water : string;        (* crop.irrigation_need *)
  entry_npk : string;          (* crop.fertilizer_npk *)
  entry_season : string;       (* crop.season *)
  entry_plant : string         (* the joined planting months, or N/A *)
}.

Inductive cropsHtml : Type :=
| CropEntries (entries : list cropEntry)
| Placeholder (text : string).

Record popup : Type := {
  cacheBadge : bool;           (* is the Cached badge shown *)
  region : string;
  latitude : string;
  longitude : string;
  temperature : string;
  humidity : string;
  rainfall : string;
  wind_speed : string;
  ph : string;
  soil_type : string;
  nitrogen : string;
  phosphorus : string;
  potassium : string;
  organic_matter : string;
  cropSection : cropsHtml
}.

Definition noCropsText : string :=
  "No suitable crops found for this location.".

Section Presenter.
Context {B : Builtins}.

(** A hole [${v.k}] of a template. *)
Definition hole (v : value) (k : string) : exc string :=
  x <- JS.get v k ;; JS.toStr x.

(** The callback of [recommendations.map]. *)
Definition renderCrop (crop : value) : exc cropEntry :=
  n <- hole crop "crop_name" ;;
  sc <- hole crop "suitability_score" ;;
  w <- hole crop "irrigation_need" ;;
  f <- hole crop "fertilizer_npk" ;;
  se <- hole crop "season" ;;
  pm <- JS.get crop "planting_months" ;;
  pl <- (if JS.truthy pm then JS.join pm ", " else Ok "N/A") ;;
  Ok {| entry_name := n; entry_score := sc; entry_water := w;
        entry_npk := f; entry_season := se; entry_plant := pl |}.

(** The [if] that fills [cropsHtml]. *)
Definition renderCrops (recommendations : value) : exc cropsHtml :=
  nonEmpty <-
    (if JS.truthy recommendations
     then len <- JS.get recommendations "length" ;; JS.gtZero len
     else Ok false) ;;
  if (nonEmpty : bool)
  then entries <- JS.map recommendations renderCrop ;;
       Ok (CropEntries entries)
  else Ok (Placeholder noCropsText).

(** [createPopupContent(data, isCached = false)]; an [undefined]
    [isCached] takes the default and is falsy either way. *)
Definition createPopupContent (data isCached : value) : exc popup :=
  weather <- JS.get data "weather" ;;
  soil <- JS.get data "soil" ;;
  recommendations <- JS.get data "crop_recommendations" ;;
  location <- JS.get data "location" ;;
  let badge := JS.truthy isCached in
  cropsHtml <- renderCrops recommendations ;;
  reg <- JS.get location "region" ;;
  reg' <- JS.toStr (if JS.truthy reg then reg else VStr "Pakistan") ;;
  la <- JS.get location "latitude" ;;
  la' <- JS.toFixed la 4 ;;
  lo <- JS.get location "longitude" ;;
  lo' <- JS.toFixed lo 4 ;;
  te <- hole weather "temperature" ;;
  hu <- hole weather "humidity" ;;
  ra <- hole weather "rainfall" ;;
  wi <- hole weather "wind_speed" ;;
  p <- hole soil "ph" ;;
  ty <- hole soil "soil_type" ;;
  ni <- hole soil "nitrogen" ;;
  ph' <- hole soil "phosphorus" ;;
  po <- hole soil "potassium" ;;
  om <- hole soil "organic_matter" ;;
  Ok {| cacheBadge := badge; region := reg'; latitude := la';
        longitude := lo'; temperature := te; humidity := hu;
        rainfall := ra; wind_speed := wi; ph := p; soil_type := ty;
        nitrogen := ni; phosphorus := ph'; potassium := po;
        organic_matter := om; cropSection := cropsHtml |}.

End Presenter.

(** ** The fallback data

    [random n] is the value of the [n]-th call of [Math.random] made by one
    call of [createDemoData] (the properties of an object literal are
    evaluated in source order), and [now] is the text of
    [new Date().toISOString()]. *)

Definition createDemoData (random : nat -> Q) (now : string) (lat lon : Q)
  : value :=
  VObj
    [ ("location",
       VObj [ ("latitude", VNum lat);
              ("longitude", VNum lon);
              ("region",
               VStr (if Num.gtb lat 31 then "Punjab"
                     else if Num.gtb lat 27 then "Sindh"
                     else "Balochistan")) ]);
      ("weather",
       VObj [ ("temperature", VNum (25 + random 0%nat * 15));
              ("humidity", VNum (40 + random 1%nat * 40));
              ("rainfall", VNum (random 2%nat * 10));
              ("wind_speed", VNum (5 + random 3%nat * 15));
              ("date", VStr now) ]);
      ("soil",
       VObj [ ("ph", VNum (6.5 + random 4%nat * 2));
              ("organic_matter", VNum (1 + random 5%nat * 2));
              ("nitrogen", VNum (0.02 + random 6%nat * 0.05));
              ("phosphorus", VNum (8 + random 7%nat * 15));
              ("potassium", VNum (100 + random 8%nat * 150));
              ("soil_type", VStr "Alluvial") ]);
      ("crop_recommendations",
       VArr [ VObj [ ("crop_name", VStr "Wheat");
                     ("suitability_score", VNum (7 + random 9%nat * 2));
                     ("irrigation_need", VNum 450);
                     ("fertilizer_npk", VStr "120-60-60");
                     ("season", VStr "Rabi");
                     ("planting_months",
                      VArr [VStr "November"; VStr "December"]) ];
              VObj [ ("crop_name", VStr "Rice");
                     ("suitability_score", VNum (6 + random 10%nat * 2));
                     ("irrigation_need", VNum 1200);
                     ("fertilizer_npk", VStr "120-90-60");
                     ("season", VStr "Kharif");
                     ("planting_months",
                      VArr [VStr "May"; VStr "June"]) ] ]) ]%Q.

(** ** What the handlers do to their collaborators *)

Inductive action : Type :=
| PreventDefault
| StopPropagation
| Alert (msg : string)
| OpenLoadingPopup (lat lon : Q)
| Fetch (lat lon : Q)
| ConsoleError (e : error)
| SetContent (content : popup)
| SetView (lat lon : Q) (zoom : nat)
| AddMarker (lat lon : Q) (label : string)
| ClearSearchInput.

(** The run of a handler: its actions in program order, and the exception
    that left it, if any. *)
Record run : Type := {
  actions : list action;
  uncaught : option error
}.

(** ** The click handler *)

Record response : Type := {
  ok : bool;
  json : exc value
}.

Section ClickHandler.
Context {B : Builtins}.

(** [fetchResult] is what awaiting [fetch] gives for the request the
    handler sends: a response, or the exception of a failed transport. *)
Variable fetchResult : exc response.
Variable random : nat -> Q.
Variable now : string.

(** The body of the [try]. *)
Definition tryBlock : exc popup :=
  resp <- fetchResult ;;
  if negb (ok resp) then Throw (UserError "Failed to fetch data")
  else
    result <- json resp ;;
    isCached <- JS.get result "cached" ;;
    data <- JS.get result "data" ;;
    createPopupContent data isCached.

(** The body of the [catch]. *)
Definition catchBlock (lat lon : Q) : exc popup :=
  let demoData := createDemoData random now lat lon in
  createPopupContent demoData (VBool false).

Definition clickHandler (lat lon : Q) : run :=
  let entry := [PreventDefault; StopPropagation] in
  if GeoBounds.clickOutside lat lon
  then {| actions :=
            (entry ++ [Alert "Please click within Pakistan boundaries!"])%list;
          uncaught := None |}
  else
    let sent := (entry ++ [OpenLoadingPopup lat lon; Fetch lat lon])%list in
    match tryBlock with
    | Ok content =>
        {| actions := (sent ++ [SetContent content])%list;
           uncaught := None |}
    | Throw e =>
        match catchBlock lat lon with
        | Ok content =>
            {| actions :=
                 (sent ++ [ConsoleError e; SetContent content])%list;
               uncaught := None |}
        | Throw e' =>
            {| actions := (sent ++ [ConsoleError e])%list;
               uncaught := Some e' |}
        end
    end.

End ClickHandler.

(** ** The search handler *)

Section SearchHandler.
Context {B : Builtins}.

(** The registry the handler consults; the script's is [majorCities]. *)
Variable cities : list city.

(** The callback of [majorCities.find]. *)
Definition cityMatches (query : list N) (c : city) : bool :=
  Str.includes (Str.toLowerCase (Str.units (name c)))
    (Str.toLowerCase query).

(** [input] is the text of the search box. *)
Definition searchLocationIn (input : list N) : list action :=
  let query := Str.trim input in
  if Str.isEmpty query then [PreventDefault]
  else
    let branch :=
      match Search.coordMatch query with
      | Some coordMatch =>
          match Search.parseGroup 1 coordMatch,
                Search.parseGroup 2 coordMatch with
          | Some lat, Some lon =>
              if GeoBounds.searchInside lat lon
              then [ SetView lat lon 12;
                     AddMarker lat lon
                       ("Coordinates: " ++ Number_toFixed lat 4
                          ++ ", " ++ Number_toFixed lon 4) ]
              else [Alert "Coordinates outside Pakistan boundaries!"]
          | _, _ => [Alert "Coordinates outside Pakistan boundaries!"]
          end
      | None =>
          match List.find (cityMatches query) cities with
          | Some c =>
              [ SetView (lat c) (lon c) 10;
                AddMarker (lat c) (lon c)
                  (name c ++ ", " ++ province c) ]
          | None =>
              [Alert "City not found! Try: Karachi, Lahore, Islamabad, etc."]
          end
      end in
    (PreventDefault :: branch ++ [ClearSearchInput])%list.

End SearchHandler.

Definition searchLocation {B : Builtins} (input : list N) : list action :=
  searchLocationIn majorCities input.

(** ** The payload of the analysis service

    The service is not part of the script; the shape of its answer is the
    data model the script is written against: an envelope with a [cached]
    flag and a [data] object with [location], [weather], [soil] and an
    optional list of crop recommendations.  [encode] is the value such a
    payload is after [response.json()]. *)

Module Payload.

(** Modelled from the spec: the type of a crop recommendation, declared by
    the service and absent from the script. *)
Record CropRecommendation : Type := {
  crop_name : string;
  suitability_score : Q;
  irrigation_need : Q;
  fertilizer_npk : string;
  season : string;
  planting_months : list string
}.

(** Modelled from the spec: the type of an analysis result, declared by
    the service and absent from the script.  The recommendations may be
    absent. *)
Record AnalysisResult : Type := {
  loc_latitude : Q;
  loc_longitude : Q;
  loc_region : string;
  w_temperature : Q;
  w_humidity : Q;
  w_rainfall : Q;
  w_wind_speed : Q;
  s_ph : Q;
  s_soil_type : string;
  s_nitrogen : Q;
  s_phosphorus : Q;
  s_potassium : Q;
  s_organic_matter : Q;
  crop_recommendations : option (list CropRecommendation)
}.

Definition encodeCrop (c : CropRecommendation) : value :=
  VObj [ ("crop_name", VStr (crop_name c));
         ("suitability_score", VNum (suitability_score c));
         ("irrigation_need", VNum (irrigation_need c));
         ("fertilizer_npk", VStr (fertilizer_npk c));
         ("season", VStr (season c));
         ("planting_months", VArr (List.map VStr (planting_months c))) ].

Definition encode (r : AnalysisResult) : value :=
  VObj
    ([ ("location",
        VObj [ ("latitude", VNum (loc_latitude r));
               ("longitude", VNum (loc_longitude r));
               ("region", VStr (loc_region r)) ]);
       ("weather",
        VObj [ ("temperature", VNum (w_temperature r));
               ("humidity", VNum (w_humidity r));
               ("rainfall", VNum (w_rainfall r));
               ("wind_speed", VNum (w_wind_speed r)) ]);
       ("soil",
        VObj [ ("ph", VNum (s_ph r));
               ("soil_type", VStr (s_soil_type r));
               ("nitrogen", VNum (s_nitrogen r));
               ("phosphorus", VNum (s_phosphorus r));
               ("potassium", VNum (s_potassium r));
               ("organic_matter", VNum (s_organic_matter r)) ]) ]
     ++ match crop_recommendations r with
        | Some l => [("crop_recommendations", VArr (List.map encodeCrop l))]
        | None => []
        end)%list.

(** An envelope is well formed when it carries a boolean [cached] and the
    encoding of a result as [data]. *)
Definition wellFormedEnvelope (v : value) : Prop :=
  exists (c : bool) (r : AnalysisResult),
    JS.get v "cached" = Ok (VBool c) /\ JS.get v "data" = Ok (encode r).

End Payload.

(** The entry the presenter shows for a recommendation. *)
Definition entryOf {B : Builtins} (c : Payload.CropRecommendation)
  : cropEntry :=
  {| entry_name := Payload.crop_name c;
     entry_score := Number_toString (Payload.suitability_score c);
     entry_water := Number_toString (Payload.irrigation_need c);
     entry_npk := Payload.fertilizer_npk c;
     entry_season := Payload.season c;
     entry_plant := String.concat ", " (Payload.planting_months c) |}.

(** The ways the request of the click handler fails: the transport fails,
    the status is not a success, the body is not JSON, or reading and
    rendering the parsed envelope raises an exception. *)
Inductive fetchFailure {B : Builtins} (fetchResult : exc response)
  : error -> Prop :=
| TransportFailure (e : error) :
    fetchResult = Throw e -> fetchFailure fetchResult e
| BadStatus (resp : response) :
    fetchResult = Ok resp -> ok resp = false ->
    fetchFailure fetchResult (UserError "Failed to fetch data")
| BodyNotJson (resp : response) (e : error) :
    fetchResult = Ok resp -> ok resp = true -> json resp = Throw e ->
    fetchFailure fetchResult e
| EnvelopeRaises (resp : response) (envelope : value) (e : error) :
    fetchResult = Ok resp -> ok resp = true -> json resp = Ok envelope ->
    (isCached <- JS.get envelope "cached" ;;
     data <- JS.get envelope "data" ;;
     createPopupContent data isCached) = Throw e ->
    fetchFailure fetchResult e.

(** [t] occurs in [s] when the letters of both are taken in lower case. *)
Definition containsIgnoringCase (s : string) (t : list N) : Prop :=
  exists pre post : list N,
    Str.toLowerCase (Str.units s)
    = (pre ++ Str.toLowerCase t ++ post)%list.

(** Two code units that are the same letter up to case: they are equal,
    or one is an ASCII capital and the other its small letter, or one is
    the KELVIN SIGN and the other the letter K in either case. *)
Definition sameLetter (a b : N) : Prop :=
  a = b
  \/ ((65 <= a <= 90)%N /\ b = (a + 32)%N)
  \/ ((65 <= b <= 90)%N /\ a = (b + 32)%N)
  \/ (a = 8490%N /\ (b = 75%N \/ b = 107%N))
  \/ (b = 8490%N /\ (a = 75%N \/ a = 107%N)).

(** The query occurs in the name, letter for letter up to case. *)
Definition occursIgnoringCase (cityName : string) (query : list N) : Prop :=
  exists pre mid post : list N,
    Str.units cityName = (pre ++ mid ++ post)%list
    /\ Forall2 sameLetter mid query.

(** A registry whose names are ASCII, as the names of the script are. *)
Definition asciiNames (cities : list city) : Prop :=
  forall c, In c cities ->
    Forall (fun x => (x < 128)%N) (Str.units (name c)).

(** A malformed answer of the service: the envelope is there, but the
    weather and soil objects of its payload have none of their fields and
    the recommendations are missing. *)
Definition fieldlessEnvelope : value :=
  VObj [ ("cached", VBool true);
         ("data",
          VObj [ ("location",
                  VObj [ ("latitude", VNum 30.3753);
                         ("longitude", VNum 69.3451);
                         ("region", VStr "Balochistan") ]);
                 ("weather", VObj []);
                 ("soil", VObj []) ]) ].

(** ** Reading a decimal as the engine does

    The number a decimal is read as is the binary64 value nearest to it
    (ties to even), and a number of the model is the shortest decimal that
    reads as it, the one the engine prints.  The exponent is not bounded
    above: a decimal beyond the range of binary64, which the engine reads
    as [Infinity], stays a huge number here, and the script only compares
    it with the bounds of the geofence. *)

Module Binary64.

(** The integer nearest to [n / d], ties to even, for [0 < d]. *)
Definition roundDiv (n d : Z) : Z :=
  let k := (n / d)%Z in
  let r := (n mod d)%Z in
  match (2 * r ?= d)%Z with
  | Lt => k
  | Gt => (k + 1)%Z
  | Eq => if Z.even k then k else (k + 1)%Z
  end.

(** The integer part of the binary logarithm of [n / d], for positive
    [n] and [d]. *)
Definition ilog2 (n d : Z) : Z :=
  let e := (Z.log2 n - Z.log2 d)%Z in
  if (0 <=? e)%Z
  then if (d * 2 ^ e <=? n)%Z then e else (e - 1)%Z
  else if (d <=? n * 2 ^ (- e))%Z then e else (e - 1)%Z.

(** The multiple of [base ^ k] nearest to [n / d]. *)
Definition nearestTo (base : Z) (n d k : Z) : Q :=
  if (0 <=? k)%Z
  then inject_Z (roundDiv n (d * base ^ k) * base ^ k)
  else Qmake (roundDiv (n * base ^ (- k)) d) (Z.to_pos (base ^ (- k))).

(** The binary64 value nearest to a positive [x]: 53 significant bits,
    and no bit below 2 ^ -1074. *)
Definition nearest (x : Q) : Q :=
  let n := Qnum x in
  let d := Zpos (Qden x) in
  nearestTo 2 n d (Z.max (ilog2 n d - 52) (-1074)).

(** The shortest decimal that reads as the binary64 value [x]: the first
    of the decimals nearest to [x] with more and more digits. *)
Fixpoint shortestFrom (fuel : nat) (k : Z) (x : Q) : Q :=
  match fuel with
  | O => x
  | S fuel' =>
      let c := nearestTo 10 (Qnum x) (Zpos (Qden x)) k in
      if (0 <? Qnum c)%Z && Qeq_bool (nearest c) x then c
      else shortestFrom fuel' (k - 1)%Z x
  end.

Definition shortest (x : Q) : Q :=
  let l := ilog2 (Qnum x) (Zpos (Qden x)) in
  shortestFrom 24 (((l + 1) * 30103) / 100000 + 1)%Z x.

Definition ofDecimal (q : Q) : Q :=
  match Qnum q with
  | Z0 => 0
  | Zpos _ => shortest (nearest q)
  | Zneg _ => Qopp (shortest (nearest (Qopp q)))
  end.

End Binary64.

(** An instance for the runs that are evaluated: decimals are read as the
    engine reads them, and a stand-in replaces the printing of numbers.
    Every property below holds for all [Builtins]. *)
Definition exampleBuiltins : Builtins :=
  {| Number_toString := fun _ => "#";
     Number_toFixed := fun _ _ => "#.####";
     String_toNumber_positive := fun _ => false;
     Number_ofDecimal := Binary64.ofDecimal |}.

(** The region the thresholds give, by the order on the rationals. *)
Definition regionByThreshold (lat : Q) : string :=
  if Qlt_le_dec 31 lat then "Punjab"
  else if Qlt_le_dec 27 lat then "Sindh"
  else "Balochistan".

(** [random] is a source of numbers in the half-open unit interval, as
    [Math.random] is. *)
Definition unitSource (random : nat -> Q) : Prop :=
  forall n : nat, (0 <= random n /\ random n < 1)%Q.

(** ** The rest of the script: province rings, markers, the keyboard *)

(** A feature of [pakistanProvinces]: its name and the ring of its
    polygon, as the GeoJSON has it ([lon, lat] pairs). *)
Record feature : Type := {
  featureName : string;
  ring : list (Q * Q)
}.

Definition pakistanProvinces : list feature :=
  [ {| featureName := "Punjab";
       ring := [ (69.33, 27.72); (75.85, 27.72); (75.85, 34.02);
                 (73.16, 34.02); (72.20, 33.48); (71.78, 32.06);
                 (69.33, 32.06); (69.33, 27.72) ] |};
    {| featureName := "Sindh";
       ring := [ (66.50, 23.69); (71.78, 23.69); (71.78, 28.55);
                 (69.33, 28.55); (68.84, 27.22); (66.50, 27.22);
                 (66.50, 23.69) ] |};
    {| featureName := "KPK";
       ring := [ (69.33, 31.91); (73.16, 31.91); (73.16, 36.98);
                 (69.33, 36.98); (69.33, 31.91) ] |};
    {| featureName := "Balochistan";
       ring := [ (60.87, 23.69); (69.33, 23.69); (69.33, 31.91);
                 (61.92, 31.91); (61.92, 29.40); (60.87, 29.40);
                 (60.87, 23.69) ] |} ]%Q.

(** The callback of the pulsing timer of a city marker:
    [marker.setRadius(marker.getRadius() === 8 ? 12 : 8)]. *)
Definition pulse (radius : Q) : Q :=
  if Qeq_bool radius 8 then 12%Q else 8%Q.

(** The radius a marker is created with. *)
Definition initialRadius : Q := 8%Q.

(** The period of the timer, in milliseconds, for the value [r] of its
    call of [Math.random]. *)
Definition pulseInterval (r : Q) : Q := (2000 + r * 1000)%Q.

(** The [keypress] listener of the search box; [key] is [e.key] and
    [input] the text of the box. *)
Definition keypressHandler {B : Builtins} (key : string) (input : list N)
  : list action :=
  if String.eqb key "Enter"
  then PreventDefault :: searchLocation input
  else [].

(** The popup of a well-formed result, field by field. *)
Definition popupOf {B : Builtins} (r : Payload.AnalysisResult)
  (cached : bool) : popup :=
  {| cacheBadge := cached;
     region := if String.eqb (Payload.loc_region r) ""
               then "Pakistan" else Payload.loc_region r;
     latitude := Number_toFixed (Payload.loc_latitude r) 4;
     longitude := Number_toFixed (Payload.loc_longitude r) 4;
     temperature := Number_toString (Payload.w_temperature r);
     humidity := Number_toString (Payload.w_humidity r);
     rainfall := Number_toString (Payload.w_rainfall r);
     wind_speed := Number_toString (Payload.w_wind_speed r);
     ph := Number_toString (Payload.s_ph r);
     soil_type := Payload.s_soil_type r;
     nitrogen := Number_toString (Payload.s_nitrogen r);
     phosphorus := Number_toString (Payload.s_phosphorus r);
     potassium := Number_toString (Payload.s_potassium r);
     organic_matter := Number_toString (Payload.s_organic_matter r);
     cropSection :=
       match Payload.crop_recommendations r with
       | None | Some [] => Placeholder noCropsText
       | Some l => CropEntries (List.map entryOf l)
       end |}.

(** The popup of the fallback data, field by field. *)
Definition demoPopup {B : Builtins} (random : nat -> Q) (lat lon : Q)
  : popup :=
  {| cacheBadge := false;
     region := regionByThreshold lat;
     latitude := Number_toFixed lat 4;
     longitude := Number_toFixed lon 4;
     temperature := Number_toString (25 + random 0%nat * 15);
     humidity := Number_toString (40 + random 1%nat * 40);
     rainfall := Number_toString (random 2%nat * 10);
     wind_speed := Number_toString (5 + random 3%nat * 15);
     ph := Number_toString (6.5 + random 4%nat * 2);
     soil_type := "Alluvial";
     nitrogen := Number_toString (0.02 + random 6%nat * 0.05);
     phosphorus := Number_toString (8 + random 7%nat * 15);
     potassium := Number_toString (100 + random 8%nat * 150);
     organic_matter := Number_toString (1 + random 5%nat * 2);
     cropSection :=
       CropEntries
         [ {| entry_name := "Wheat";
              entry_score := Number_toString (7 + random 9%nat * 2);
              entry_water := Number_toString 450;
              entry_npk := "120-60-60";
              entry_season := "Rabi";
              entry_plant := "November, December" |};
           {| entry_name := "Rice";
              entry_score := Number_toString (6 + random 10%nat * 2);
              entry_water := Number_toString 1200;
              entry_npk := "120-90-60";
              entry_season := "Kharif";
              entry_plant := "May, June" |} ] |}%Q.

(** Classifiers of actions. *)
Definition isFetch (a : action) : bool :=
  match a with Fetch _ _ => true | _ => false end.

Definition isAlert (a : action) : bool :=
  match a with Alert _ => true | _ => false end.

(** The points at which an action moves the map or drops a marker. *)
Definition target (a : action) : option (Q * Q) :=
  match a with
  | SetView la lo _ | AddMarker la lo _ => Some (la, lo)
  | _ => None
  end.

(** A computation whose only exception is [TypeError]. *)
Definition typeErrorOnly {A : Type} (m : exc A) : Prop :=
  forall e, m = Throw e -> e = TypeError.

(** A section of the payload that the presenter cannot read from. *)
Definition unreadable (x : exc value) : Prop :=
  x = Throw TypeError \/ x = Ok VUndefined \/ x = Ok VNull.

(** A well-formed result, for the runs that are evaluated. *)
Definition sampleResult : Payload.AnalysisResult :=
  {| Payload.loc_latitude := 31.5804;
     Payload.loc_longitude := 74.3587;
     Payload.loc_region := "";
     Payload.w_temperature := 31;
     Payload.w_humidity := 55;
     Payload.w_rainfall := 0;
     Payload.w_wind_speed := 9;
     Payload.s_ph := 7.2;
     Payload.s_soil_type := "Clay";
     Payload.s_nitrogen := 0.04;
     Payload.s_phosphorus := 12;
     Payload.s_potassium := 180;
     Payload.s_organic_matter := 2;
     Payload.crop_recommendations :=
       Some [ {| Payload.crop_name := "Cotton";
                 Payload.suitability_score := 8;
                 Payload.irrigation_need := 700;
                 Payload.fertilizer_npk := "100-50-50";
                 Payload.season := "Kharif";
                 Payload.planting_months := ["April"; "May"] |} ] |}.

(** Any code unit but the comma. *)
Definition notComma (c : N) : bool := negb (N.eqb c Str.comma).

(** A character class that does not tell a letter from its lower case. *)
Definition caseBlind (p : N -> bool) : Prop :=
  forall c, p (Str.lowerChar c) = p c.

(* ================================================================== *)
(** * Part II: properties                                              *)
(* ================================================================== *)

(** ** Numbers *)

Lemma ltb_lt (x y : Q) : Num.ltb x y = true <-> (x < y)%Q.
Proof.
  unfold Num.ltb, Qlt, Qcompare.
  destruct (Z.compare_spec (Qnum x * QDen y) (Qnum y * QDen x));
    split; intros; try lia; discriminate.
Qed.

Lemma leb_le (x y : Q) : Num.leb x y = true <-> (x <= y)%Q.
Proof. apply Qle_bool_iff. Qed.

Lemma ltb_nle (x y : Q) : Num.ltb x y = negb (Num.leb y x).
Proof.
  destruct (Num.ltb x y) eqn:L, (Num.leb y x) eqn:G; try reflexivity.
  - apply ltb_lt in L. apply leb_le in G.
    exfalso. exact (Qlt_not_le _ _ L G).
  - exfalso. destruct (Qlt_le_dec x y) as [H | H].
    + apply ltb_lt in H. congruence.
    + apply leb_le in H. congruence.
Qed.

(** ** C2: the geofence *)

(** C2 -- Both geofence tests decide membership in the closed box
    [23.69, 36.98] x [60.87, 75.85]: the search test accepts a pair exactly
    when both coordinates lie in their closed interval, so the bounds
    themselves are accepted and a value strictly outside either interval is
    rejected, and the click handler rejects exactly the pairs the search
    test does not accept. *)
Theorem geofence_closed_box (lat lon : Q) :
  (GeoBounds.searchInside lat lon = true <->
     (23.69 <= lat /\ lat <= 36.98) /\ (60.87 <= lon /\ lon <= 75.85))%Q
  /\ GeoBounds.clickOutside lat lon = negb (GeoBounds.searchInside lat lon).
Proof.
  split.
  - unfold GeoBounds.searchInside, Num.geb.
    rewrite !andb_true_iff, !leb_le. tauto.
  - unfold GeoBounds.clickOutside, GeoBounds.searchInside, Num.gtb, Num.geb.
    rewrite !ltb_nle, !negb_andb. reflexivity.
Qed.

(** ** C7 and C3: the fallback data *)

Lemma region_threshold (lat : Q) :
  (if Num.gtb lat 31 then "Punjab"
   else if Num.gtb lat 27 then "Sindh" else "Balochistan")
  = regionByThreshold lat.
Proof.
  unfold regionByThreshold, Num.gtb.
  destruct (Qlt_le_dec 31 lat) as [H | H].
  - apply ltb_lt in H. now rewrite H.
  - rewrite ltb_nle. apply leb_le in H. rewrite H. simpl.
    destruct (Qlt_le_dec 27 lat) as [H' | H'].
    + apply ltb_lt in H'. now rewrite H'.
    + rewrite ltb_nle. apply leb_le in H'. now rewrite H'.
Qed.

(** C7 -- The region of the synthesized result is "Punjab" when the
    latitude exceeds 31, otherwise "Sindh" when it exceeds 27, otherwise
    "Balochistan"; it is the same for every longitude, random source and
    clock. *)
Theorem region_from_latitude_alone
  (random random' : nat -> Q) (now now' : string) (lat lon lon' : Q) :
  (loc <- JS.get (createDemoData random now lat lon) "location" ;;
   JS.get loc "region") = Ok (VStr (regionByThreshold lat))
  /\ (loc <- JS.get (createDemoData random' now' lat lon') "location" ;;
      JS.get loc "region")
     = (loc <- JS.get (createDemoData random now lat lon) "location" ;;
        JS.get loc "region").
Proof.
  split; cbn; now rewrite region_threshold.
Qed.

Lemma scaled_unit_range (base width r : Q) :
  (0 <= width -> 0 <= r -> r < 1 ->
   base <= base + r * width /\ base + r * width <= base + width)%Q.
Proof.
  intros Hw H0 H1. split.
  - rewrite <- (Qplus_0_r base) at 1.
    apply Qplus_le_r. now apply Qmult_le_0_compat.
  - apply Qplus_le_r.
    rewrite <- (Qmult_1_l width) at 2.
    apply Qmult_le_compat_r; [now apply Qlt_le_weak | assumption].
Qed.

(** C3 -- For every coordinate and every random source in [0, 1), the
    synthesizer (a total function) returns exactly two recommendations,
    Wheat then Rice, with the fixed irrigation need, fertilizer, season and
    planting months, a wheat score in [7, 9] and a rice score in [6, 8]. *)
Theorem demo_crop_recommendations
  (random : nat -> Q) (now : string) (lat lon : Q) :
  unitSource random ->
  exists wheat rice : Q,
    JS.get (createDemoData random now lat lon) "crop_recommendations"
    = Ok (VArr
            [ VObj [ ("crop_name", VStr "Wheat");
                     ("suitability_score", VNum wheat);
                     ("irrigation_need", VNum 450);
                     ("fertilizer_npk", VStr "120-60-60");
                     ("season", VStr "Rabi");
                     ("planting_months",
                      VArr [VStr "November"; VStr "December"]) ];
              VObj [ ("crop_name", VStr "Rice");
                     ("suitability_score", VNum rice);
                     ("irrigation_need", VNum 1200);
                     ("fertilizer_npk", VStr "120-90-60");
                     ("season", VStr "Kharif");
                     ("planting_months",
                      VArr [VStr "May"; VStr "June"]) ] ])
    /\ (7 <= wheat /\ wheat <= 9)%Q
    /\ (6 <= rice /\ rice <= 8)%Q.
Proof.
  intros Hr.
  exists (7 + random 9%nat * 2)%Q, (6 + random 10%nat * 2)%Q.
  split; [reflexivity |].
  destruct (Hr 9%nat) as [W0 W1], (Hr 10%nat) as [R0 R1].
  split.
  - apply (scaled_unit_range 7 2); [discriminate | assumption | assumption].
  - apply (scaled_unit_range 6 2); [discriminate | assumption | assumption].
Qed.

Lemma demo_crop_recommendations_witness :
  unitSource (fun _ => 1 # 2) /\
  exists wheat rice : Q,
    JS.get (createDemoData (fun _ => 1 # 2) "2024-01-01T00:00:00.000Z"
              30.3753 69.3451) "crop_recommendations"
    = Ok (VArr
            [ VObj [ ("crop_name", VStr "Wheat");
                     ("suitability_score", VNum wheat);
                     ("irrigation_need", VNum 450);
                     ("fertilizer_npk", VStr "120-60-60");
                     ("season", VStr "Rabi");
                     ("planting_months",
                      VArr [VStr "November"; VStr "December"]) ];
              VObj [ ("crop_name", VStr "Rice");
                     ("suitability_score", VNum rice);
                     ("irrigation_need", VNum 1200);
                     ("fertilizer_npk", VStr "120-90-60");
                     ("season", VStr "Kharif");
                     ("planting_months",
                      VArr [VStr "May"; VStr "June"]) ] ])
    /\ (7 <= wheat /\ wheat <= 9)%Q
    /\ (6 <= rice /\ rice <= 8)%Q.
Proof.
  assert (H : unitSource (fun _ => 1 # 2)).
  { intros n. split; [discriminate | reflexivity]. }
  split; [exact H |].
  exact (demo_crop_recommendations (fun _ => 1 # 2)
           "2024-01-01T00:00:00.000Z" 30.3753 69.3451 H).
Defined.

(** ** Texts *)

Section TextFacts.
Local Open Scope list_scope.

Lemma append_nil_r (s : list N) : s ++ [] = s.
Proof. induction s as [| c s IH]; simpl; [reflexivity | now rewrite IH]. Qed.

Lemma append_assoc (a b c : list N) : (a ++ b) ++ c = a ++ b ++ c.
Proof. induction a as [| x a IH]; simpl; [reflexivity | now rewrite IH]. Qed.

Lemma length_append (a b : list N) :
  List.length (a ++ b) = (List.length a + List.length b)%nat.
Proof. induction a as [| x a IH]; simpl; [reflexivity | now rewrite IH]. Qed.

Lemma startsWith_iff (t s : list N) :
  Str.startsWith t s = true <-> exists post, s = t ++ post.
Proof.
  revert s. induction t as [| a t IH]; intros s; simpl.
  - split; [intros _; now exists s | reflexivity].
  - destruct s as [| b s].
    + split; [discriminate | intros [post H]; discriminate].
    + rewrite andb_true_iff, IH. split.
      * intros [E [post ->]]. apply N.eqb_eq in E. subst b. now exists post.
      * intros [post H]. injection H as -> ->.
        split; [apply N.eqb_refl | now exists post].
Qed.

Lemma includes_iff (s t : list N) :
  Str.includes s t = true <-> exists pre post, s = pre ++ t ++ post.
Proof.
  induction s as [| c s IH].
  - simpl. rewrite orb_false_r, startsWith_iff. split.
    + intros [post H]. now exists [], post.
    + intros [pre [post H]]. destruct pre; [now exists post | discriminate].
  - cbn [Str.includes]. rewrite orb_true_iff, startsWith_iff, IH. split.
    + intros [[post H] | [pre [post H]]].
      * now exists [], post.
      * exists (c :: pre), post. simpl. now rewrite H.
    + intros [pre [post H]]. destruct pre as [| x pre].
      * left. now exists post.
      * right. injection H as _ H. now exists pre, post.
Qed.

Lemma dropWhile_all (p : N -> bool) (s : list N) :
  Str.allb p s = true -> Str.dropWhile p s = [].
Proof.
  induction s as [| c s IH]; simpl; [reflexivity |].
  intros H. apply andb_true_iff in H as [Hc Hs]. rewrite Hc. now apply IH.
Qed.

Lemma trim_blank (s : list N) :
  Str.allb Str.isSpace s = true -> Str.trim s = [].
Proof. intros H. unfold Str.trim. now rewrite (dropWhile_all _ _ H). Qed.

Lemma dropWhileEnd_nil (p : N -> bool) (s : list N) :
  Str.dropWhileEnd p s = [] -> Str.allb p s = true.
Proof.
  induction s as [| c s IH]; [reflexivity |]. cbn [Str.dropWhileEnd Str.allb].
  destruct (Str.dropWhileEnd p s) as [| x r]; [| discriminate].
  destruct (p c); [intros _; now apply IH | discriminate].
Qed.

Lemma allb_dropWhile (p : N -> bool) (s : list N) :
  Str.allb p (Str.dropWhile p s) = true -> Str.allb p s = true.
Proof.
  induction s as [| c s IH]; [reflexivity |]. cbn [Str.dropWhile].
  destruct (p c) eqn:E; [| exact (fun H => H)].
  intros H. cbn [Str.allb]. rewrite E. now apply IH.
Qed.

(** The texts [trim] empties are the texts made of blanks. *)
Lemma trim_empty (s : list N) :
  Str.trim s = [] -> Str.allb Str.isSpace s = true.
Proof.
  unfold Str.trim. intros H. apply allb_dropWhile.
  now apply dropWhileEnd_nil.
Qed.

End TextFacts.

(** ** C8: the empty query *)

(** C8 (as the script has it) -- For every input that is empty after
    trimming (these are the inputs made only of the blanks [trim] strips,
    the Unicode ones included), the search handler returns at once: its
    single action is the [preventDefault] of its first line.  No message
    is shown, neither branch of the search runs, the map is not touched
    and the input box is not cleared, whatever the registry holds. *)
Theorem blank_query_returns_silently
  {B : Builtins} (cities : list city) (input : list N) :
  Str.trim input = [] ->
  Str.allb Str.isSpace input = true
  /\ searchLocationIn cities input = [PreventDefault].
Proof.
  intros H. split; [now apply trim_empty |].
  unfold searchLocationIn. now rewrite H.
Qed.

Lemma blank_query_returns_silently_witness :
  Str.trim [32; 160; 9; 8232; 65279]%N = [] /\
  Str.allb Str.isSpace [32; 160; 9; 8232; 65279]%N = true /\
  @searchLocationIn exampleBuiltins majorCities [32; 160; 9; 8232; 65279]%N
  = [PreventDefault].
Proof.
  split; [reflexivity |].
  apply (@blank_query_returns_silently exampleBuiltins majorCities
           [32; 160; 9; 8232; 65279]%N).
  reflexivity.
Defined.

(** C8 (as stated) fails -- On the empty query the handler shows no
    message at all: no [alert] is among its actions. *)
Lemma blank_query_no_message :
  ~ exists msg : string,
      In (Alert msg) (@searchLocation exampleBuiltins []).
Proof.
  intros [msg H]. cbn in H. destruct H as [H | []]. discriminate.
Qed.

(** ** C10: the registry and the hint of the not-found message *)

(** C10 -- The registry holds exactly the eight cities Karachi, Lahore,
    Faisalabad, Rawalpindi, Multan, Hyderabad, Peshawar and Quetta; none of
    their names contains "islamabad" when case is ignored, and the search
    for "Islamabad" ends in the not-found message that suggests it. *)
Theorem islamabad_not_found {B : Builtins} :
  List.map name majorCities
  = [ "Karachi"; "Lahore"; "Faisalabad"; "Rawalpindi"; "Multan";
      "Hyderabad"; "Peshawar"; "Quetta" ]
  /\ (forall c : city, In c majorCities ->
        ~ containsIgnoringCase (name c) (Str.units "Islamabad"))
  /\ searchLocation (Str.units "Islamabad")
     = [ PreventDefault;
         Alert "City not found! Try: Karachi, Lahore, Islamabad, etc.";
         ClearSearchInput ].
Proof.
  split; [reflexivity | split].
  - intros c Hc [pre [post H]].
    assert (E : Str.includes (Str.toLowerCase (Str.units (name c)))
                  (Str.toLowerCase (Str.units "Islamabad")) = true).
    { apply includes_iff. now exists pre, post. }
    clear H. simpl in Hc.
    repeat (destruct Hc as [<- | Hc]; [vm_compute in E; discriminate |]).
    destruct Hc.
  - vm_compute. reflexivity.
Qed.

(** ** C6: the crop section of the popup *)

Lemma mapM_itemStr_strings {B : Builtins} (l : list string) :
  mapM JS.itemStr (List.map VStr l) = Ok l.
Proof.
  induction l as [| s l IH]; [reflexivity |].
  cbn [List.map mapM]. rewrite IH. reflexivity.
Qed.

Lemma renderCrop_encode {B : Builtins} (c : Payload.CropRecommendation) :
  renderCrop (Payload.encodeCrop c) = Ok (entryOf c).
Proof.
  unfold renderCrop, Payload.encodeCrop, hole. cbn.
  rewrite mapM_itemStr_strings. reflexivity.
Qed.

Lemma mapM_renderCrop_encode
  {B : Builtins} (l : list Payload.CropRecommendation) :
  mapM renderCrop (List.map Payload.encodeCrop l) = Ok (List.map entryOf l).
Proof.
  induction l as [| c l IH]; [reflexivity |].
  cbn [List.map mapM]. rewrite renderCrop_encode, IH. reflexivity.
Qed.

(** The recommendations that count as none: a missing property, [null]
    and the empty array. *)
Lemma renderCrops_nothing {B : Builtins} (recommendations : value) :
  recommendations = VUndefined \/ recommendations = VNull
  \/ recommendations = VArr [] ->
  renderCrops recommendations = Ok (Placeholder noCropsText).
Proof. intros [-> | [-> | ->]]; reflexivity. Qed.

Lemma positive_length {A : Type} (x : A) (l : list A) :
  Num.gtb (Num.ofNat (List.length (x :: l))) 0 = true.
Proof.
  unfold Num.gtb. apply ltb_lt. unfold Num.ofNat, Qlt. simpl. lia.
Qed.

Lemma renderCrops_list
  {B : Builtins} (c : Payload.CropRecommendation)
  (l : list Payload.CropRecommendation) :
  renderCrops (VArr (List.map Payload.encodeCrop (c :: l)))
  = Ok (CropEntries (List.map entryOf (c :: l))).
Proof.
  unfold renderCrops.
  cbn [JS.truthy JS.get String.eqb Ascii.eqb Bool.eqb bind JS.gtZero List.map].
  rewrite positive_length. cbn [bind JS.map].
  change (Payload.encodeCrop c :: List.map Payload.encodeCrop l)
    with (List.map Payload.encodeCrop (c :: l)).
  rewrite mapM_renderCrop_encode. reflexivity.
Qed.

(** C6 -- For every well-formed analysis result and cache flag the
    presenter returns a popup (it does not throw) that carries the flag
    unchanged.  When the recommendations are absent or empty its crop
    section is the fixed "no suitable crops" placeholder, not an empty list
    of entries; otherwise it is the list of entries with exactly one entry
    per recommendation, in order. *)
Theorem crop_section_of_result
  {B : Builtins} (r : Payload.AnalysisResult) (cached : bool) :
  exists p : popup,
    createPopupContent (Payload.encode r) (VBool cached) = Ok p
    /\ cacheBadge p = cached
    /\ cropSection p
       = match Payload.crop_recommendations r with
         | None | Some [] => Placeholder noCropsText
         | Some l => CropEntries (List.map entryOf l)
         end
    /\ match cropSection p with
       | Placeholder _ =>
           Payload.crop_recommendations r = None
           \/ Payload.crop_recommendations r = Some []
       | CropEntries entries =>
           exists l, Payload.crop_recommendations r = Some l
                     /\ List.length entries = List.length l
                     /\ entries <> []
       end.
Proof.
  unfold createPopupContent, Payload.encode.
  destruct (Payload.crop_recommendations r) as [[| c l] |] eqn:E.
  - cbn. destruct (Payload.loc_region r =? "")%string;
      eexists; (split; [reflexivity |]); cbn; auto.
  - cbn [app JS.get JS.lookup String.eqb Ascii.eqb Bool.eqb bind].
    rewrite renderCrops_list.
    cbn. destruct (Payload.loc_region r =? "")%string;
      eexists; (split; [reflexivity |]); cbn;
      (split; [reflexivity | split; [reflexivity |]]);
      (exists (c :: l); split; [reflexivity | split]);
      solve [ cbn; now rewrite List.length_map | discriminate ].
  - cbn. destruct (Payload.loc_region r =? "")%string;
      eexists; (split; [reflexivity |]); cbn; auto.
Qed.

(** ** C1: the fallback of the click handler *)

Lemma tryBlock_failure
  {B : Builtins} (fetchResult : exc response) (e : error) :
  fetchFailure fetchResult e -> tryBlock fetchResult = Throw e.
Proof.
  unfold tryBlock.
  intros [e' -> | resp -> Hok | resp e' -> Hok Hj | resp env e' -> Hok Hj Hr];
    cbn [bind].
  - reflexivity.
  - now rewrite Hok.
  - now rewrite Hok, Hj.
  - rewrite Hok, Hj. exact Hr.
Qed.

Lemma tryBlock_throw_is_failure
  {B : Builtins} (fetchResult : exc response) (e : error) :
  tryBlock fetchResult = Throw e -> fetchFailure fetchResult e.
Proof.
  unfold tryBlock. destruct fetchResult as [resp | e0] eqn:F; cbn [bind].
  - destruct (ok resp) eqn:Hok; cbn [negb].
    + destruct (json resp) as [env | e1] eqn:Hj; cbn [bind].
      * intros H. now apply (EnvelopeRaises _ resp env e).
      * intros [= <-]. now apply (BodyNotJson _ resp e1).
    + intros [= <-]. now apply (BadStatus _ resp).
  - intros [= <-]. now apply TransportFailure.
Qed.

(** An envelope without a usable [data] makes the presenter throw on its
    first property read. *)
Lemma envelope_without_data_raises
  {B : Builtins} (fields : list (string * value)) :
  JS.get (VObj fields) "data" = Ok VUndefined
  \/ JS.get (VObj fields) "data" = Ok VNull ->
  (isCached <- JS.get (VObj fields) "cached" ;;
   data <- JS.get (VObj fields) "data" ;;
   createPopupContent data isCached) = Throw TypeError.
Proof.
  intros [H | H]; cbn [JS.get bind] in *; injection H as ->; reflexivity.
Qed.

(** The [catch] block cannot throw: the presenter accepts every value the
    synthesizer builds. *)
Lemma catchBlock_total
  {B : Builtins} (random : nat -> Q) (now : string) (lat lon : Q) :
  exists p : popup,
    catchBlock random now lat lon = Ok p
    /\ cacheBadge p = false
    /\ region p = regionByThreshold lat
    /\ soil_type p = "Alluvial"
    /\ exists wheat rice,
         cropSection p = CropEntries [wheat; rice]
         /\ entry_name wheat = "Wheat" /\ entry_name rice = "Rice".
Proof.
  unfold catchBlock, createDemoData. rewrite region_threshold.
  assert (T : JS.truthy (VStr (regionByThreshold lat)) = true).
  { unfold regionByThreshold.
    destruct (Qlt_le_dec 31 lat); [reflexivity |].
    destruct (Qlt_le_dec 27 lat); reflexivity. }
  unfold createPopupContent.
  cbn [JS.get JS.lookup String.eqb Ascii.eqb Bool.eqb bind].
  rewrite T. cbn.
  eexists. split; [reflexivity |]. cbn.
  repeat split. do 2 eexists. repeat split.
Qed.

(** C1 (as the script has it) -- For every click inside the geofence, when
    the request fails (the transport fails, the status is not a success,
    the body is not JSON, or reading and rendering the parsed envelope
    raises an exception, as it does for an envelope without [data]), no
    exception leaves the handler: the failure is logged and the popup is
    filled with the rendering of the synthesized data, without the cached
    badge. *)
Theorem fallback_on_failure
  {B : Builtins} (fetchResult : exc response) (random : nat -> Q)
  (now : string) (lat lon : Q) (e : error) :
  GeoBounds.clickOutside lat lon = false ->
  fetchFailure fetchResult e ->
  exists p : popup,
    createPopupContent (createDemoData random now lat lon) (VBool false)
    = Ok p
    /\ cacheBadge p = false
    /\ clickHandler fetchResult random now lat lon
       = {| actions :=
              [ PreventDefault; StopPropagation;
                OpenLoadingPopup lat lon; Fetch lat lon;
                ConsoleError e; SetContent p ];
            uncaught := None |}.
Proof.
  intros Hin Hf.
  destruct (catchBlock_total random now lat lon) as [p [Hp [Hb _]]].
  exists p. split; [exact Hp | split; [exact Hb |]].
  unfold clickHandler. rewrite Hin, (tryBlock_failure _ _ Hf), Hp.
  reflexivity.
Qed.

Lemma fallback_on_failure_witness :
  GeoBounds.clickOutside 30.3753 69.3451 = false
  /\ @fetchFailure exampleBuiltins
       (Ok {| ok := true; json := Ok (VObj [("cached", VBool true)]) |})
       TypeError
  /\ exists p : popup,
       @createPopupContent exampleBuiltins
         (createDemoData (fun _ => 1 # 2) "" 30.3753 69.3451) (VBool false)
       = Ok p
       /\ cacheBadge p = false
       /\ @clickHandler exampleBuiltins
            (Ok {| ok := true; json := Ok (VObj [("cached", VBool true)]) |})
            (fun _ => 1 # 2) "" 30.3753 69.3451
          = {| actions :=
                 [ PreventDefault; StopPropagation;
                   OpenLoadingPopup 30.3753 69.3451;
                   Fetch 30.3753 69.3451;
                   ConsoleError TypeError; SetContent p ];
               uncaught := None |}.
Proof.
  assert (Hin : GeoBounds.clickOutside 30.3753 69.3451 = false)
    by reflexivity.
  assert (Hf : @fetchFailure exampleBuiltins
                 (Ok {| ok := true;
                        json := Ok (VObj [("cached", VBool true)]) |})
                 TypeError).
  { eapply EnvelopeRaises; reflexivity. }
  split; [exact Hin | split; [exact Hf |]].
  exact (@fallback_on_failure exampleBuiltins _ (fun _ => 1 # 2) ""
           30.3753 69.3451 TypeError Hin Hf).
Defined.

(** C1 (as stated) fails -- An envelope whose [data] has no weather and
    no soil fields is malformed, yet the handler does not fall back: the
    presenter does not throw on it, so the popup shows the payload as
    received, with the cached badge and [undefined] for the missing fields,
    which is not the rendering of the synthesized data. *)
Lemma malformed_envelope_without_fallback :
  let run :=
    @clickHandler exampleBuiltins
      (Ok {| ok := true; json := Ok fieldlessEnvelope |})
      (fun _ => 1 # 2) "" 30.3753 69.3451 in
  GeoBounds.clickOutside 30.3753 69.3451 = false
  /\ ~ Payload.wellFormedEnvelope fieldlessEnvelope
  /\ exists shown : popup,
       run
       = {| actions :=
              [ PreventDefault; StopPropagation;
                OpenLoadingPopup 30.3753 69.3451; Fetch 30.3753 69.3451;
                SetContent shown ];
            uncaught := None |}
       /\ cacheBadge shown = true
       /\ temperature shown = "undefined"
       /\ Ok shown
          <> @createPopupContent exampleBuiltins
               (createDemoData (fun _ => 1 # 2) "" 30.3753 69.3451)
               (VBool false).
Proof.
  cbv zeta. split; [reflexivity | split].
  - intros [c [r [_ Hd]]]. unfold Payload.encode in Hd. cbn in Hd.
    inversion Hd.
  - eexists. split; [vm_compute; reflexivity |].
    split; [reflexivity | split; [reflexivity |]].
    vm_compute. discriminate.
Qed.

(** ** Code units *)

Lemma isDigit_iff (c : N) :
  Str.isDigit c = true <-> (48 <= c <= 57)%N.
Proof.
  unfold Str.isDigit, Str.between.
  now rewrite andb_true_iff, !N.leb_le.
Qed.

Lemma isSpace_iff (c : N) :
  Str.isSpace c = true <->
  ((9 <= c <= 13)%N \/ c = 32%N \/ c = 160%N \/ c = 5760%N
   \/ (8192 <= c <= 8202)%N \/ c = 8232%N \/ c = 8233%N \/ c = 8239%N
   \/ c = 8287%N \/ c = 12288%N \/ c = 65279%N).
Proof.
  unfold Str.isSpace, Str.between.
  rewrite !orb_true_iff, !andb_true_iff, !N.leb_le, !N.eqb_eq. tauto.
Qed.

Lemma digit_not_space (c : N) :
  Str.isDigit c = true -> Str.isSpace c = false.
Proof.
  intros D. apply isDigit_iff in D. apply not_true_is_false. intros S.
  apply isSpace_iff in S. lia.
Qed.

Lemma digit_not_unit (ch c : N) :
  (ch < 48 \/ 57 < ch)%N -> Str.isDigit c = true -> N.eqb ch c = false.
Proof.
  intros Hch D. apply isDigit_iff in D. apply N.eqb_neq. lia.
Qed.

(** One step of the scan on a text whose first unit is known. *)
Ltac strip_step :=
  cbn [app Str.stripChar]; rewrite ?N.eqb_refl;
  try change (N.eqb Str.dot Str.comma) with false;
  cbv iota.

Lemma digit_not_dot (c : N) :
  Str.isDigit c = true -> N.eqb Str.dot c = false.
Proof. apply digit_not_unit. unfold Str.dot. lia. Qed.

Lemma digit_not_minus (c : N) :
  Str.isDigit c = true -> N.eqb Str.minus c = false.
Proof. apply digit_not_unit. unfold Str.minus. lia. Qed.

(** ** The search pattern

    The backtracking matcher, run on the pattern of the script, computes
    what the deterministic scan computes; the scan finds exactly the
    leftmost text of the pattern. *)

Section PatternFacts.
Import Regex.
Import Search.
Local Open Scope list_scope.

Lemma starLoop_cls (p : N -> bool) (k : cont) (fuel : nat) :
  forall (s : list N) (caps : captures),
    (List.length s <= fuel)%nat ->
    starLoop (matcher (Cls p)) k fuel s caps = greedy p k s caps.
Proof.
  induction fuel as [| fuel IH]; intros s caps H.
  - destruct s; [reflexivity | simpl in H; lia].
  - destruct s as [| c r]; cbn [starLoop matcher greedy]; [reflexivity |].
    destruct (p c); [| reflexivity].
    assert (L : Nat.ltb (List.length r) (List.length (c :: r)) = true)
      by (apply Nat.ltb_lt; simpl; lia).
    rewrite L, IH; [reflexivity | simpl in H; lia].
Qed.

Lemma star_cls (p : N -> bool) (k : cont) (s : list N) (caps : captures) :
  matcher (Star (Cls p)) s caps k = greedy p k s caps.
Proof. cbn [matcher]. now apply starLoop_cls. Qed.

Lemma span_cons_true (p : N -> bool) (c : N) (r : list N) :
  p c = true ->
  Str.span p (c :: r)
  = (c :: (fst (Str.span p r)), snd (Str.span p r)).
Proof. intros H. simpl. rewrite H. now destruct (Str.span p r). Qed.

Lemma span_head_false (p : N -> bool) (s : list N) :
  headIs p s = false -> Str.span p s = ([], s).
Proof.
  destruct s as [| c r]; simpl; [reflexivity |]. now intros ->.
Qed.

Lemma span_rest_head (p : N -> bool) (s : list N) :
  headIs p (snd (Str.span p s)) = false.
Proof.
  induction s as [| c r IH]; [reflexivity |].
  destruct (p c) eqn:P.
  - now rewrite span_cons_true.
  - rewrite span_head_false; simpl; assumption.
Qed.

Lemma span_split (p : N -> bool) (s : list N) :
  s = fst (Str.span p s) ++ snd (Str.span p s).
Proof.
  induction s as [| c r IH]; [reflexivity |].
  destruct (p c) eqn:P.
  - rewrite span_cons_true by assumption. simpl. now rewrite <- IH.
  - rewrite span_head_false; simpl; [reflexivity | assumption].
Qed.

Lemma span_all (p : N -> bool) (s : list N) :
  Str.allb p (fst (Str.span p s)) = true.
Proof.
  induction s as [| c r IH]; [reflexivity |].
  destruct (p c) eqn:P.
  - rewrite span_cons_true by assumption. simpl. now rewrite P.
  - rewrite span_head_false; simpl; [reflexivity | assumption].
Qed.

(** A greedy class loop commits to the longest run as soon as the
    continuation cannot do better after a shorter one. *)
Lemma greedy_commit (p : N -> bool) (k : cont) (caps : captures) :
  (forall x, headIs p x = true ->
             k (snd (Str.span p x)) caps = None -> k x caps = None) ->
  forall s, greedy p k s caps = k (snd (Str.span p s)) caps.
Proof.
  intros H. induction s as [| c r IH]; [reflexivity |].
  cbn [greedy]. destruct (p c) eqn:P.
  - rewrite IH.
    pose proof (H (c :: r) P) as Hx.
    rewrite span_cons_true in * by assumption. cbn [snd] in *.
    destruct (k (snd (Str.span p r)) caps); [reflexivity | now apply Hx].
  - rewrite span_head_false by exact P. reflexivity.
Qed.

Lemma stripChar_head (c : N) (s r : list N) :
  Str.stripChar c s = Some r -> s = c :: r.
Proof.
  destruct s as [| d t]; simpl; [discriminate |].
  destruct (N.eqb_spec c d) as [-> | _]; [| discriminate].
  now intros [= ->].
Qed.

Lemma stripChar_digit_head (c : N) (s : list N) :
  (forall d, Str.isDigit d = true -> N.eqb c d = false) ->
  headIs Str.isDigit s = true -> Str.stripChar c s = None.
Proof.
  intros Hc. destruct s as [| d t]; simpl; [reflexivity |].
  intros H. now rewrite (Hc d H).
Qed.

Lemma commit_digits (k : cont) (caps : captures) :
  committed k ->
  forall x, headIs Str.isDigit x = true ->
            k (snd (Str.span Str.isDigit x)) caps = None -> k x caps = None.
Proof.
  intros [H | H] x Hx Hn.
  - apply H. destruct x; [discriminate |]. simpl in *. unfold digitOrDot.
    now rewrite Hx.
  - now destruct (H _ _ Hn).
Qed.

Lemma matcher_Seq (a b : regex) (s : list N) (caps : captures) (k : cont) :
  matcher (Seq a b) s caps k
  = matcher a s caps (fun t c => matcher b t c k).
Proof. reflexivity. Qed.

Lemma matcher_Opt (a : regex) (s : list N) (caps : captures) (k : cont) :
  matcher (Opt a) s caps k
  = match matcher a s caps k with
    | Some m => Some m
    | None => k s caps
    end.
Proof. reflexivity. Qed.

Lemma matcher_Chr (c : N) (s : list N) (caps : captures) (k : cont) :
  matcher (Chr c) s caps k
  = match Str.stripChar c s with
    | Some t => k t caps
    | None => None
    end.
Proof.
  destruct s as [| d t]; [reflexivity |]. simpl. now destruct (N.eqb c d).
Qed.

Lemma matcher_Cls (p : N -> bool) (s : list N) (caps : captures) (k : cont) :
  matcher (Cls p) s caps k
  = match s with
    | d :: t => if p d then k t caps else None
    | [] => None
    end.
Proof. reflexivity. Qed.

Lemma matcher_Grp (n : nat) (a : regex) (s : list N) (caps : captures) (k : cont) :
  matcher (Grp n a) s caps k
  = matcher a s caps (fun t c => k t ((n, consumed s t) :: c)).
Proof. reflexivity. Qed.

Lemma matcher_fraction (k : cont) (u : list N) (caps : captures) :
  committed k ->
  matcher (Seq (Opt (Chr Str.dot)) (Star (Cls Str.isDigit))) u caps k
  = k (afterFraction u) caps.
Proof.
  intros Hk. rewrite matcher_Seq, matcher_Opt, matcher_Chr, !star_cls.
  unfold afterFraction.
  rewrite (greedy_commit _ _ _ (commit_digits k caps Hk)).
  destruct (Str.stripChar Str.dot u) as [r |] eqn:E; [| reflexivity].
  rewrite star_cls.
  rewrite (greedy_commit _ _ _ (commit_digits k caps Hk)).
  destruct (k (snd (Str.span Str.isDigit r)) caps) eqn:K; [reflexivity |].
  apply stripChar_head in E. subst u.
  rewrite span_head_false by reflexivity. cbn [snd].
  destruct Hk as [H | H]; [now apply H | now destruct (H _ _ K)].
Qed.

Lemma afterFraction_rest (x : list N) :
  headIs Str.isDigit x = false ->
  Str.stripChar Str.dot x = None ->
  afterFraction x = x.
Proof.
  intros H S. unfold afterFraction. rewrite S.
  now rewrite span_head_false.
Qed.

Lemma matcher_unsigned (k : cont) (t : list N) (caps : captures) :
  committed k ->
  matcher (Seq (Plus (Cls Str.isDigit))
             (Seq (Opt (Chr Str.dot)) (Star (Cls Str.isDigit)))) t caps k
  = match scanUnsigned t with
    | Some (_, rest) => k rest caps
    | None => None
    end.
Proof.
  intros Hk. unfold Plus, scanUnsigned.
  rewrite !matcher_Seq, matcher_Cls.
  destruct t as [| c r]; [reflexivity |].
  destruct (Str.isDigit c) eqn:D.
  - rewrite span_cons_true by assumption.
    rewrite star_cls, greedy_commit.
    + rewrite matcher_fraction by assumption. unfold afterFraction.
      destruct (Str.stripChar Str.dot (snd (Str.span Str.isDigit r)));
        now destruct (Str.span Str.isDigit _).
    + intros x Hx. rewrite !matcher_fraction by assumption.
      unfold afterFraction at 2.
      rewrite (stripChar_digit_head Str.dot x digit_not_dot Hx).
      intros Hn.
      destruct (Str.stripChar Str.dot (snd (Str.span Str.isDigit x)))
        as [r' |] eqn:S.
      * destruct Hk as [H | H]; [| now destruct (H _ _ Hn)].
        apply H. apply stripChar_head in S. now rewrite S.
      * rewrite afterFraction_rest in Hn;
          [assumption | apply span_rest_head | assumption].
  - rewrite span_head_false by exact D. reflexivity.
Qed.

Lemma scanUnsigned_digit_head (s : list N) :
  headIs Str.isDigit s = false -> scanUnsigned s = None.
Proof.
  intros H. unfold scanUnsigned. now rewrite span_head_false.
Qed.

Lemma matcher_number (k : cont) (s : list N) (caps : captures) :
  committed k ->
  matcher numberPattern s caps k
  = match scanNumber s with
    | Some (_, rest) => k rest caps
    | None => None
    end.
Proof.
  intros Hk. unfold numberPattern, scanNumber.
  rewrite matcher_Seq, matcher_Opt, matcher_Chr.
  rewrite !matcher_unsigned by assumption.
  destruct (Str.stripChar Str.minus s) as [r |] eqn:E; [| reflexivity].
  rewrite matcher_unsigned by assumption.
  apply stripChar_head in E. subst s.
  rewrite (scanUnsigned_digit_head (Str.minus :: r)) by reflexivity.
  destruct (scanUnsigned r) as [[g rest] |]; [| reflexivity].
  now destruct (k rest caps).
Qed.

Lemma consumed_prefix (g rest : list N) : consumed (g ++ rest) rest = g.
Proof.
  unfold consumed. rewrite length_append.
  replace (List.length g + List.length rest - List.length rest)%nat
    with (List.length g) by lia.
  induction g as [| c g IH]; simpl.
  - now destruct rest.
  - now rewrite IH.
Qed.

Lemma scanUnsigned_split (s g rest : list N) :
  scanUnsigned s = Some (g, rest) ->
  s = g ++ rest /\ headIs Str.isDigit g = true.
Proof.
  unfold scanUnsigned.
  pose proof (span_split Str.isDigit s) as E1.
  pose proof (span_all Str.isDigit s) as A1.
  destruct (Str.span Str.isDigit s) as [ds s2]. cbn [fst snd] in *.
  destruct ds as [| d ds]; [discriminate |].
  assert (Hd : Str.isDigit d = true).
  { simpl in A1. now apply andb_true_iff in A1. }
  destruct (Str.stripChar Str.dot s2) as [r |] eqn:S.
  - apply stripChar_head in S. subst s2.
    pose proof (span_split Str.isDigit r) as E2.
    destruct (Str.span Str.isDigit r) as [fs s4]. cbn [fst snd] in *.
    intros [= <- <-]. split; [| exact Hd].
    rewrite E1, E2. cbn. now rewrite !append_assoc.
  - pose proof (span_split Str.isDigit s2) as E2.
    destruct (Str.span Str.isDigit s2) as [fs s4]. cbn [fst snd] in *.
    intros [= <- <-]. split; [| exact Hd].
    rewrite E1, E2. cbn. now rewrite !append_assoc.
Qed.

Lemma scanNumber_split (s g rest : list N) :
  scanNumber s = Some (g, rest) -> s = g ++ rest.
Proof.
  unfold scanNumber. destruct (Str.stripChar Str.minus s) as [r |] eqn:S.
  - apply stripChar_head in S. subst s.
    destruct (scanUnsigned r) as [[g' rest'] |] eqn:U; [| discriminate].
    intros [= <- <-]. apply scanUnsigned_split in U as [-> _]. reflexivity.
  - intros U. now apply scanUnsigned_split in U.
Qed.

Lemma matcher_group (n : nat) (k : cont) (s : list N) (caps : captures) :
  committed k ->
  matcher (Grp n numberPattern) s caps k
  = match scanNumber s with
    | Some (g, rest) => k rest ((n, g) :: caps)
    | None => None
    end.
Proof.
  intros Hk. rewrite matcher_Grp, matcher_number.
  - destruct (scanNumber s) as [[g rest] |] eqn:E; [| reflexivity].
    apply scanNumber_split in E. subst s. now rewrite consumed_prefix.
  - destruct Hk as [H | H]; [left | right]; intros x c; [intros Hx |];
      now apply H.
Qed.

Lemma committed_final : committed final.
Proof. right. discriminate. Qed.

Lemma scanNumber_space_head (x : list N) :
  headIs Str.isSpace x = true -> scanNumber x = None.
Proof.
  destruct x as [| c r]; [discriminate |]. cbn [headIs]. intros H.
  unfold scanNumber. cbn [Str.stripChar].
  destruct (N.eqb_spec Str.minus c) as [<- | _];
    [vm_compute in H; discriminate H |].
  apply scanUnsigned_digit_head. cbn [headIs].
  destruct (Str.isDigit c) eqn:D; [| reflexivity].
  rewrite (digit_not_space c D) in H. discriminate H.
Qed.

Lemma matcher_coordPattern (s : list N) :
  matcher coordPattern s [] final = option_map capturesOf (scanAt s).
Proof.
  unfold coordPattern, scanAt.
  rewrite matcher_Seq, matcher_group.
  - destruct (scanNumber s) as [[g1 rest] |]; [| reflexivity].
    rewrite matcher_Seq, matcher_Chr.
    destruct (Str.stripChar Str.comma rest) as [r |]; [| reflexivity].
    rewrite matcher_Seq, star_cls, greedy_commit.
    + rewrite matcher_group by apply committed_final.
      now destruct (scanNumber (snd (Str.span Str.isSpace r))) as [[g2 rest2] |].
    + intros x Hx _. rewrite matcher_group by apply committed_final.
      now rewrite scanNumber_space_head.
  - left. intros x c Hx. rewrite matcher_Seq, matcher_Chr.
    destruct x as [| d t]; [discriminate |]. cbn [Str.stripChar headIs] in *.
    destruct (N.eqb_spec Str.comma d) as [<- | _]; [discriminate Hx | reflexivity].
Qed.

Lemma exec_coordPattern (s : list N) :
  exec coordPattern s = option_map capturesOf (scan s).
Proof.
  induction s as [| c r IH]; cbn [exec scan].
  - fold final. rewrite matcher_coordPattern. now destruct (scanAt []).
  - fold final. rewrite matcher_coordPattern.
    destruct (scanAt (c :: r)); [reflexivity | exact IH].
Qed.

Lemma span_app (p : N -> bool) (ds y : list N) :
  Str.allb p ds = true -> headIs p y = false ->
  Str.span p (ds ++ y) = (ds, y).
Proof.
  intros A H. induction ds as [| c ds IH]; cbn [app].
  - now apply span_head_false.
  - simpl in A. apply andb_true_iff in A as [Hc A].
    rewrite span_cons_true by assumption. now rewrite IH.
Qed.

Lemma span_fst_head (p : N -> bool) (s : list N) :
  headIs p s = true -> headIs p (fst (Str.span p s)) = true.
Proof.
  destruct s as [| c r]; [discriminate |]. cbn [headIs]. intros H.
  now rewrite span_cons_true.
Qed.

(** *** The scan finds only pairs of the pattern *)
Lemma allb_app (p : N -> bool) (x y : list N) :
  Str.allb p x = true -> Str.allb p y = true -> Str.allb p (x ++ y) = true.
Proof.
  intros Hx Hy. induction x as [| c x IH]; [exact Hy |].
  simpl in *. apply andb_true_iff in Hx as [-> Hx]. now apply IH.
Qed.

Lemma scanUnsigned_text (s g rest : list N) :
  scanUnsigned s = Some (g, rest) -> unsignedText g.
Proof.
  unfold scanUnsigned.
  pose proof (span_all Str.isDigit s) as A1.
  destruct (Str.span Str.isDigit s) as [ds s2]. cbn [fst] in A1.
  destruct ds as [| d ds]; [discriminate |].
  assert (Hd : headIs Str.isDigit (d :: ds) = true).
  { simpl in A1. now apply andb_true_iff in A1. }
  destruct (Str.stripChar Str.dot s2) as [r |].
  - pose proof (span_all Str.isDigit r) as A2.
    destruct (Str.span Str.isDigit r) as [fs s4]. cbn [fst] in A2.
    intros [= <- <-]. exists (d :: ds), ([Str.dot] ++ fs).
    repeat split; auto. right. now exists fs.
  - pose proof (span_all Str.isDigit s2) as A2.
    destruct (Str.span Str.isDigit s2) as [fs s4]. cbn [fst] in A2.
    intros [= <- <-]. exists ((d :: ds) ++ fs), [].
    split; [| split; [| split]].
    + cbn. now rewrite append_nil_r.
    + exact Hd.
    + now apply (allb_app _ (d :: ds) fs).
    + now left.
Qed.

Lemma scanNumber_text (s g rest : list N) :
  scanNumber s = Some (g, rest) -> numberText g.
Proof.
  unfold scanNumber. destruct (Str.stripChar Str.minus s) as [r |].
  - destruct (scanUnsigned r) as [[g' rest'] |] eqn:U; [| discriminate].
    intros [= <- <-]. right. exists g'. split; [reflexivity |].
    exact (scanUnsigned_text _ _ _ U).
  - intros U. left. exact (scanUnsigned_text _ _ _ U).
Qed.

Lemma scanAt_sound (s a b : list N) :
  scanAt s = Some (a, b) -> pairAt s [] a b.
Proof.
  unfold scanAt.
  destruct (scanNumber s) as [[g1 rest] |] eqn:N1; [| discriminate].
  destruct (Str.stripChar Str.comma rest) as [r |] eqn:S; [| discriminate].
  destruct (scanNumber (snd (Str.span Str.isSpace r))) as [[g2 rest2] |] eqn:N2;
    [| discriminate].
  intros [= <- <-].
  exists (fst (Str.span Str.isSpace r)), rest2.
  split; [| split; [| split]].
  - cbn [app]. rewrite (scanNumber_split _ _ _ N1) at 1.
    apply stripChar_head in S. subst rest.
    rewrite (span_split Str.isSpace r) at 1.
    now rewrite (scanNumber_split _ _ _ N2) at 1.
  - exact (scanNumber_text _ _ _ N1).
  - apply span_all.
  - exact (scanNumber_text _ _ _ N2).
Qed.

Lemma scan_unfold (s : list N) :
  scan s = match scanAt s with
           | Some m => Some m
           | None =>
               match s with
               | [] => None
               | _ :: r => scan r
               end
           end.
Proof. now destruct s. Qed.

(** *** The scan finds the leftmost pair *)
Lemma scan_leftmost (pre t : list N) :
  scanAt t <> None ->
  exists (pre' t' : list N) (m : list N * list N),
    pre ++ t = pre' ++ t'
    /\ (List.length pre' <= List.length pre)%nat
    /\ scanAt t' = Some m
    /\ scan (pre ++ t) = Some m.
Proof.
  intros Ht. induction pre as [| c pre IH].
  - destruct (scanAt t) as [m |] eqn:E; [| congruence].
    exists [], t, m. repeat split; auto.
    rewrite scan_unfold. cbn [app]. now rewrite E.
  - destruct (scanAt ((c :: pre) ++ t)) as [m |] eqn:E.
    + exists [], ((c :: pre) ++ t), m. repeat split; auto.
      * simpl. lia.
      * rewrite scan_unfold. now rewrite E.
    + destruct IH as (pre' & t' & m & E1 & L & E2 & E3).
      exists (c :: pre'), t', m. repeat split; auto.
      * cbn [app]. now rewrite E1.
      * simpl. lia.
      * rewrite scan_unfold, E. exact E3.
Qed.

Lemma scan_sound (s a b : list N) :
  scan s = Some (a, b) -> exists pre, pairAt s pre a b.
Proof.
  induction s as [| c r IH]; rewrite scan_unfold.
  - destruct (scanAt []) as [m |] eqn:E; [| discriminate].
    intros [= ->]. exists []. now apply scanAt_sound.
  - destruct (scanAt (c :: r)) as [m |] eqn:E.
    + intros [= ->]. exists []. now apply scanAt_sound.
    + intros H. destruct (IH H) as (pre & ws & post & -> & Hp).
      exists (c :: pre), ws, post. split; [reflexivity | exact Hp].
Qed.

(** *** The scan misses no pair of the pattern *)
Lemma scanUnsigned_head (s : list N) :
  headIs Str.isDigit s = true -> scanUnsigned s <> None.
Proof.
  intros H. unfold scanUnsigned.
  pose proof (span_fst_head _ _ H) as F.
  destruct (Str.span Str.isDigit s) as [ds s2]. cbn [fst] in F.
  destruct ds; [discriminate |].
  destruct (Str.stripChar Str.dot s2); destruct (Str.span Str.isDigit _);
    discriminate.
Qed.

Lemma headIs_app (p : N -> bool) (x y : list N) :
  headIs p x = true -> headIs p (x ++ y) = true.
Proof. now destruct x. Qed.

Lemma unsignedText_head (u y : list N) :
  unsignedText u -> headIs Str.isDigit (u ++ y) = true.
Proof.
  intros (ds & frac & -> & Hh & _). rewrite append_assoc.
  now apply headIs_app.
Qed.

Lemma scanNumber_head (g y : list N) :
  numberText g -> scanNumber (g ++ y) <> None.
Proof.
  unfold scanNumber. intros [Hu | (u & -> & Hu)].
  - pose proof (unsignedText_head g y Hu) as Hh.
    rewrite (stripChar_digit_head Str.minus _ digit_not_minus Hh).
    now apply scanUnsigned_head.
  - strip_step.
    pose proof (scanUnsigned_head _ (unsignedText_head u y Hu)) as Hn.
    now destruct (scanUnsigned (u ++ y)) as [[g r] |].
Qed.

Lemma scanUnsigned_exact (u y : list N) :
  unsignedText u ->
  scanUnsigned (u ++ Str.comma :: y) = Some (u, Str.comma :: y).
Proof.
  intros (ds & frac & -> & Hh & Hd & Hf). unfold scanUnsigned.
  rewrite append_assoc.
  rewrite (span_app Str.isDigit ds (frac ++ Str.comma :: y) Hd).
  - destruct ds as [| d ds]; [discriminate |].
    destruct Hf as [-> | (fs & -> & Hfs)].
    + strip_step.
      rewrite span_head_false by reflexivity.
      now rewrite !append_nil_r.
    + strip_step.
      now rewrite (span_app Str.isDigit fs (Str.comma :: y) Hfs).
  - now destruct Hf as [-> | (fs & -> & _)].
Qed.

Lemma scanNumber_exact (a y : list N) :
  numberText a ->
  scanNumber (a ++ Str.comma :: y) = Some (a, Str.comma :: y).
Proof.
  unfold scanNumber. intros [Hu | (u & -> & Hu)].
  - pose proof (unsignedText_head a (Str.comma :: y) Hu) as Hh.
    rewrite (stripChar_digit_head Str.minus _ digit_not_minus Hh).
    now apply scanUnsigned_exact.
  - strip_step.
    now rewrite scanUnsigned_exact.
Qed.

Lemma numberText_head_not_space (b y : list N) :
  numberText b -> headIs Str.isSpace (b ++ y) = false.
Proof.
  intros [Hu | (u & -> & Hu)]; [| reflexivity].
  pose proof (unsignedText_head b y Hu) as Hh.
  destruct (b ++ y) as [| d t]; [reflexivity |].
  now apply digit_not_space.
Qed.

Lemma scanAt_complete (a ws b post : list N) :
  numberText a -> Str.allb Str.isSpace ws = true -> numberText b ->
  scanAt (a ++ [Str.comma] ++ ws ++ b ++ post) <> None.
Proof.
  intros Ha Hw Hb. unfold scanAt.
  change ([Str.comma] ++ ws ++ b ++ post) with (Str.comma :: (ws ++ b ++ post)).
  rewrite (scanNumber_exact a _ Ha).
  strip_step.
  rewrite (span_app Str.isSpace ws (b ++ post) Hw
             (numberText_head_not_space b post Hb)).
  cbn [snd]. pose proof (scanNumber_head b post Hb) as Hn.
  now destruct (scanNumber (b ++ post)) as [[g r] |].
Qed.

(** The pattern matches a query that holds a pair, and the match is a pair
    that starts no later. *)
Lemma scan_complete (s pre a b : list N) :
  pairAt s pre a b ->
  exists pre' a' b',
    scan s = Some (a', b') /\ pairAt s pre' a' b'
    /\ (List.length pre' <= List.length pre)%nat.
Proof.
  intros (ws & post & -> & Ha & Hw & Hb).
  destruct (scan_leftmost pre _ (scanAt_complete a ws b post Ha Hw Hb))
    as (pre' & t' & [a' b'] & E & L & At & Sc).
  exists pre', a', b'. split; [exact Sc | split; [| exact L]].
  destruct (scanAt_sound _ _ _ At) as (ws' & post' & Et & Hp).
  exists ws', post'. split; [| exact Hp].
  rewrite E, Et. reflexivity.
Qed.

(** *** [parseFloat] reads every captured text *)
Lemma decimalValue_digit_head (s : list N) :
  headIs Str.isDigit s = true -> decimalValue s <> None.
Proof.
  intros H. unfold decimalValue.
  rewrite (stripChar_digit_head Str.minus s digit_not_minus H).
  pose proof (span_fst_head _ _ H) as F.
  destruct (Str.span Str.isDigit s) as [ip s2]. cbn [fst] in F.
  destruct ip; [discriminate | discriminate].
Qed.

Lemma decimalValue_numberText (g : list N) :
  numberText g -> exists q : Q, decimalValue g = Some q.
Proof.
  intros Hg.
  assert (Hn : decimalValue g <> None).
  { destruct Hg as [Hu | (u & -> & Hu)].
    - apply decimalValue_digit_head.
      rewrite <- (append_nil_r g). now apply unsignedText_head.
    - unfold decimalValue. strip_step.
      assert (Hh : headIs Str.isDigit u = true).
      { rewrite <- (append_nil_r u). now apply unsignedText_head. }
      pose proof (span_fst_head _ _ Hh) as F.
      destruct (Str.span Str.isDigit u) as [ip s2]. cbn [fst] in F.
      destruct ip; discriminate. }
  destruct (decimalValue g) as [q |]; [now exists q | congruence].
Qed.

Lemma parseFloat_numberText {B : Builtins} (g : list N) :
  numberText g -> exists q : Q, parseFloat g = Some q.
Proof.
  intros Hg. destruct (decimalValue_numberText g Hg) as [q E].
  exists (Number_ofDecimal q). unfold parseFloat. now rewrite E.
Qed.

End PatternFacts.

(** ** C4, C9 and C5: the two branches of the search *)

Lemma coordMatch_scan (query : list N) :
  Search.coordMatch query
  = option_map Search.capturesOf (Search.scan query).
Proof. apply exec_coordPattern. Qed.

Lemma scan_nonempty (query : list N) (m : list N * list N) :
  Search.scan query = Some m -> Str.isEmpty query = false.
Proof. destruct query; [discriminate | reflexivity]. Qed.

(** What the handler does once the pattern has matched. *)
Lemma search_coordinate_branch
  {B : Builtins} (cities : list city) (input a b : list N) :
  Search.scan (Str.trim input) = Some (a, b) ->
  exists lat lon : Q,
    Search.parseFloat a = Some lat /\ Search.parseFloat b = Some lon
    /\ searchLocationIn cities input
       = (PreventDefault
            :: (if GeoBounds.searchInside lat lon
                then [ SetView lat lon 12;
                       AddMarker lat lon
                         ("Coordinates: " ++ Number_toFixed lat 4
                            ++ ", " ++ Number_toFixed lon 4) ]
                else [Alert "Coordinates outside Pakistan boundaries!"])
            ++ [ClearSearchInput])%list.
Proof.
  intros Hs.
  destruct (scan_sound _ _ _ Hs) as (pre & ws & post & _ & Ha & _ & Hb).
  destruct (parseFloat_numberText a Ha) as [lat Hlat].
  destruct (parseFloat_numberText b Hb) as [lon Hlon].
  exists lat, lon. split; [exact Hlat | split; [exact Hlon |]].
  unfold searchLocationIn.
  rewrite (scan_nonempty _ _ Hs), coordMatch_scan, Hs.
  cbn [option_map Search.capturesOf Search.parseGroup Regex.group
         Nat.eqb fst snd].
  rewrite Hlat, Hlon. reflexivity.
Qed.



(** C9 -- The pattern is not anchored.  Whenever the trimmed query holds,
    anywhere, a number, a comma, optional whitespace and a number, the
    pattern matches: its two groups are such a pair that starts no later
    than the given one (the leftmost), the text around the pair is ignored,
    and the handler takes the coordinate branch on the two numbers
    whatever the registry holds. *)
Theorem pattern_matches_anywhere
  {B : Builtins} (cities : list city) (input pre a b : list N) :
  Search.pairAt (Str.trim input) pre a b ->
  exists (pre' a' b' : list N) (lat lon : Q),
    Search.coordMatch (Str.trim input) = Some (Search.capturesOf (a', b'))
    /\ Search.pairAt (Str.trim input) pre' a' b'
    /\ (List.length pre' <= List.length pre)%nat
    /\ Search.parseFloat a' = Some lat /\ Search.parseFloat b' = Some lon
    /\ searchLocationIn cities input
       = (PreventDefault
            :: (if GeoBounds.searchInside lat lon
                then [ SetView lat lon 12;
                       AddMarker lat lon
                         ("Coordinates: " ++ Number_toFixed lat 4
                            ++ ", " ++ Number_toFixed lon 4) ]
                else [Alert "Coordinates outside Pakistan boundaries!"])
            ++ [ClearSearchInput])%list.
Proof.
  intros Hp.
  destruct (scan_complete _ _ _ _ Hp) as (pre' & a' & b' & Hs & Hp' & L).
  destruct (search_coordinate_branch cities input a' b' Hs)
    as (lat & lon & Hlat & Hlon & Hrun).
  exists pre', a', b', lat, lon.
  rewrite coordMatch_scan, Hs. repeat split; assumption.
Qed.

Lemma pattern_matches_anywhere_witness :
  Search.pairAt
    (Str.trim (Str.units "Lahore 30.1," ++ 160%N :: Str.units "70.2 31,71"))
    (Str.units "Lahore 30.1," ++ 160%N :: Str.units "70.2 ")
    (Str.units "31") (Str.units "71")
  /\ exists (pre' a' b' : list N) (lat lon : Q),
       Search.coordMatch
         (Str.trim
            (Str.units "Lahore 30.1," ++ 160%N :: Str.units "70.2 31,71"))
       = Some (Search.capturesOf (a', b'))
       /\ Search.pairAt
            (Str.trim
               (Str.units "Lahore 30.1," ++ 160%N :: Str.units "70.2 31,71"))
            pre' a' b'
       /\ (List.length pre'
           <= List.length
                (Str.units "Lahore 30.1," ++ 160%N :: Str.units "70.2 "))%nat
       /\ @Search.parseFloat exampleBuiltins a' = Some lat
       /\ @Search.parseFloat exampleBuiltins b' = Some lon
       /\ @searchLocationIn exampleBuiltins majorCities
            (Str.units "Lahore 30.1," ++ 160%N :: Str.units "70.2 31,71")
          = (PreventDefault
               :: (if GeoBounds.searchInside lat lon
                   then [ SetView lat lon 12;
                          AddMarker lat lon
                            ("Coordinates: "
                               ++ @Number_toFixed exampleBuiltins lat 4
                               ++ ", "
                               ++ @Number_toFixed exampleBuiltins lon 4) ]
                   else [Alert "Coordinates outside Pakistan boundaries!"])
               ++ [ClearSearchInput])%list.
Proof.
  assert (H : Search.pairAt
                (Str.trim
                   (Str.units "Lahore 30.1,"
                      ++ 160%N :: Str.units "70.2 31,71"))
                (Str.units "Lahore 30.1," ++ 160%N :: Str.units "70.2 ")
                (Str.units "31") (Str.units "71")).
  { exists [], []. split; [reflexivity |].
    split; [| split; [reflexivity |]].
    - left. exists (Str.units "31"), []. split; [reflexivity |].
      split; [reflexivity | split; [reflexivity |]].
      now left.
    - left. exists (Str.units "71"), []. split; [reflexivity |].
      split; [reflexivity | split; [reflexivity |]].
      now left. }
  split; [exact H |].
  exact (@pattern_matches_anywhere exampleBuiltins majorCities _ _ _ _ H).
Defined.

Lemma cityMatches_iff (query : list N) (c : city) :
  cityMatches query c = true <-> containsIgnoringCase (name c) query.
Proof. unfold cityMatches, containsIgnoringCase. apply includes_iff. Qed.

Lemma find_first {A : Type} (f : A -> bool) (before after : list A) (x : A) :
  (forall y, In y before -> f y = false) -> f x = true ->
  List.find f (before ++ x :: after) = Some x.
Proof.
  intros Hb Hx. induction before as [| y before IH]; simpl.
  - now rewrite Hx.
  - rewrite (Hb y (or_introl eq_refl)). apply IH.
    intros z Hz. apply Hb. now right.
Qed.

Lemma find_nothing {A : Type} (f : A -> bool) (l : list A) :
  (forall y, In y l -> f y = false) -> List.find f l = None.
Proof.
  intros H. induction l as [| y l IH]; [reflexivity |]. simpl.
  rewrite (H y (or_introl eq_refl)). apply IH.
  intros z Hz. apply H. now right.
Qed.

Lemma not_matches (query : list N) (c : city) :
  ~ containsIgnoringCase (name c) query -> cityMatches query c = false.
Proof.
  intros H. destruct (cityMatches query c) eqn:E; [| reflexivity].
  now apply cityMatches_iff in E.
Qed.

(** *** Lower case and letters *)

Lemma lowerChar_cases (c : N) :
  ((65 <= c <= 90)%N /\ Str.lowerChar c = (c + 32)%N)
  \/ (c = 8490%N /\ Str.lowerChar c = 107%N)
  \/ (~ (65 <= c <= 90)%N /\ c <> 8490%N /\ Str.lowerChar c = c).
Proof.
  unfold Str.lowerChar, Str.isUpper, Str.between.
  destruct (N.leb_spec 65 c); destruct (N.leb_spec c 90);
    cbn [andb]; try (left; split; [lia | reflexivity]);
    (destruct (N.eqb_spec c 8490);
     [ right; left; split; [assumption | reflexivity]
     | right; right; split; [lia | split; [assumption | reflexivity]] ]).
Qed.

(** Letters that are the same up to case have the same lower case. *)
Lemma sameLetter_lower (a b : N) :
  sameLetter a b -> Str.lowerChar a = Str.lowerChar b.
Proof.
  unfold sameLetter.
  destruct (lowerChar_cases a) as [[Ha ->] | [[Ha ->] | (Ha & Ha' & ->)]];
    destruct (lowerChar_cases b) as [[Hb ->] | [[Hb ->] | (Hb & Hb' & ->)]];
    lia.
Qed.

(** In an ASCII text the converse holds. *)
Lemma lower_sameLetter (a b : N) :
  (a < 128)%N -> Str.lowerChar a = Str.lowerChar b -> sameLetter a b.
Proof.
  unfold sameLetter.
  destruct (lowerChar_cases a) as [[Ha ->] | [[Ha ->] | (Ha & Ha' & ->)]];
    destruct (lowerChar_cases b) as [[Hb ->] | [[Hb ->] | (Hb & Hb' & ->)]];
    lia.
Qed.

Lemma lowered_alike (mid query : list N) :
  Forall (fun x => (x < 128)%N) mid ->
  Str.toLowerCase mid = Str.toLowerCase query
  <-> Forall2 sameLetter mid query.
Proof.
  unfold Str.toLowerCase. revert query.
  induction mid as [| a mid IH]; intros [| b query] Hm; cbn [List.map].
  - split; [constructor | reflexivity].
  - split; [discriminate | intros H; inversion H].
  - split; [discriminate | intros H; inversion H].
  - inversion Hm as [| ? ? Ha Hm']; subst. split.
    + intros [= Hab Hr]. constructor.
      * now apply lower_sameLetter.
      * now apply IH.
    + intros H. inversion H as [| ? ? ? ? Hab Hr]; subst.
      rewrite (sameLetter_lower _ _ Hab). f_equal. now apply IH.
Qed.

(** On an ASCII name the callback of [find] tests whether the query occurs
    in the name letter for letter, case ignored. *)
Lemma cityMatches_occurs (query : list N) (c : city) :
  Forall (fun x => (x < 128)%N) (Str.units (name c)) ->
  cityMatches query c = true <-> occursIgnoringCase (name c) query.
Proof.
  intros Hascii. unfold cityMatches, occursIgnoringCase.
  rewrite includes_iff. split.
  - intros (pre & post & E). unfold Str.toLowerCase at 1 in E.
    apply map_eq_app in E as (k1 & k23 & En & E1 & E23).
    apply map_eq_app in E23 as (k2 & k3 & E23 & E2 & E3).
    exists k1, k2, k3. split; [now rewrite En, E23 |].
    apply lowered_alike; [| exact E2].
    rewrite En, E23 in Hascii.
    apply Forall_app in Hascii as [_ Hascii].
    now apply Forall_app in Hascii as [Hascii _].
  - intros (pre & mid & post & En & Hq).
    exists (Str.toLowerCase pre), (Str.toLowerCase post).
    assert (Hmid : Forall (fun x => (x < 128)%N) mid).
    { rewrite En in Hascii.
      apply Forall_app in Hascii as [_ Hascii].
      now apply Forall_app in Hascii as [Hascii _]. }
    rewrite <- (proj2 (lowered_alike mid query Hmid) Hq).
    rewrite En. unfold Str.toLowerCase. now rewrite !List.map_app.
Qed.

Lemma majorCities_ascii : asciiNames majorCities.
Proof.
  intros c Hc. apply Forall_forall. intros x Hx.
  unfold majorCities in Hc. cbn [In] in Hc.
  repeat (destruct Hc as [<- | Hc];
          [ cbn in Hx;
            repeat (destruct Hx as [<- | Hx]; [reflexivity |]);
            destruct Hx |]).
  destruct Hc.
Qed.

(** C5 -- For a non-empty trimmed query that the pattern does not match,
    the handler looks the query up in the registry, whose names are ASCII
    as the script's are: it recenters on the first city, in registry order,
    in whose name the query occurs letter for letter when case is ignored,
    and shows the not-found message when it occurs in no name.  On the
    script's registry the query "lahore" finds Lahore. *)
Theorem city_lookup_first_match
  {B : Builtins} (cities : list city) (input : list N) :
  asciiNames cities ->
  Str.trim input <> [] ->
  Search.coordMatch (Str.trim input) = None ->
  (forall (before after : list city) (c : city),
      cities = (before ++ c :: after)%list ->
      occursIgnoringCase (name c) (Str.trim input) ->
      (forall c', In c' before ->
                  ~ occursIgnoringCase (name c') (Str.trim input)) ->
      searchLocationIn cities input
      = [ PreventDefault;
          SetView (lat c) (lon c) 10;
          AddMarker (lat c) (lon c) (name c ++ ", " ++ province c);
          ClearSearchInput ])
  /\ ((forall c, In c cities ->
                 ~ occursIgnoringCase (name c) (Str.trim input)) ->
      searchLocationIn cities input
      = [ PreventDefault;
          Alert "City not found! Try: Karachi, Lahore, Islamabad, etc.";
          ClearSearchInput ])
  /\ searchLocation (Str.units "lahore")
     = [ PreventDefault;
         SetView 31.5804 74.3587 10;
         AddMarker 31.5804 74.3587 "Lahore, Punjab";
         ClearSearchInput ].
Proof.
  intros Hascii Hne Hnone.
  assert (E : Str.isEmpty (Str.trim input) = false)
    by (destruct (Str.trim input); [congruence | reflexivity]).
  assert (Hno : forall c, In c cities ->
                  ~ occursIgnoringCase (name c) (Str.trim input) ->
                  cityMatches (Str.trim input) c = false).
  { intros c Hc Hn. destruct (cityMatches (Str.trim input) c) eqn:M;
      [| reflexivity].
    now apply (cityMatches_occurs _ c (Hascii c Hc)) in M. }
  split; [| split].
  - intros before after c -> Hc Hbefore.
    unfold searchLocationIn. rewrite E, Hnone.
    rewrite (find_first (cityMatches (Str.trim input)) before after c).
    + reflexivity.
    + intros y Hy. apply Hno; [| now apply Hbefore].
      apply in_or_app. now left.
    + apply cityMatches_occurs; [| exact Hc].
      apply Hascii. apply in_or_app. right. now left.
  - intros Hall. unfold searchLocationIn. rewrite E, Hnone.
    rewrite (find_nothing (cityMatches (Str.trim input)) cities).
    + reflexivity.
    + intros y Hy. apply Hno; [exact Hy | now apply Hall].
  - vm_compute. reflexivity.
Qed.

Lemma city_lookup_first_match_witness :
  asciiNames majorCities
  /\ Str.trim (160%N :: 8490%N :: Str.units "ARACHI ") <> []
  /\ Search.coordMatch (Str.trim (160%N :: 8490%N :: Str.units "ARACHI "))
     = None
  /\ (forall (before after : list city) (c : city),
         majorCities = (before ++ c :: after)%list ->
         occursIgnoringCase (name c)
           (Str.trim (160%N :: 8490%N :: Str.units "ARACHI ")) ->
         (forall c', In c' before ->
                     ~ occursIgnoringCase (name c')
                         (Str.trim
                            (160%N :: 8490%N :: Str.units "ARACHI "))) ->
         @searchLocationIn exampleBuiltins majorCities
           (160%N :: 8490%N :: Str.units "ARACHI ")
         = [ PreventDefault;
             SetView (lat c) (lon c) 10;
             AddMarker (lat c) (lon c) (name c ++ ", " ++ province c);
             ClearSearchInput ])
  /\ ((forall c, In c majorCities ->
                 ~ occursIgnoringCase (name c)
                     (Str.trim (160%N :: 8490%N :: Str.units "ARACHI "))) ->
      @searchLocationIn exampleBuiltins majorCities
        (160%N :: 8490%N :: Str.units "ARACHI ")
      = [ PreventDefault;
          Alert "City not found! Try: Karachi, Lahore, Islamabad, etc.";
          ClearSearchInput ])
  /\ @searchLocation exampleBuiltins (Str.units "lahore")
     = [ PreventDefault;
         SetView 31.5804 74.3587 10;
         AddMarker 31.5804 74.3587 "Lahore, Punjab";
         ClearSearchInput ].
Proof.
  assert (H1 : Str.trim (160%N :: 8490%N :: Str.units "ARACHI ") <> [])
    by (vm_compute; discriminate).
  assert (H2 : Search.coordMatch
                 (Str.trim (160%N :: 8490%N :: Str.units "ARACHI "))
               = None)
    by reflexivity.
  split; [exact majorCities_ascii | split; [exact H1 | split; [exact H2 |]]].
  exact (@city_lookup_first_match exampleBuiltins majorCities
           (160%N :: 8490%N :: Str.units "ARACHI ")
           majorCities_ascii H1 H2).
Defined.

(** ** Runs of the search handler on sample queries *)

Example search_lahore_coordinates :
  @searchLocation exampleBuiltins (Str.units "31.5804, 74.3587")
  = [ PreventDefault;
      SetView 31.5804 74.3587 12;
      AddMarker 31.5804 74.3587 "Coordinates: #.####, #.####";
      ClearSearchInput ].
Proof. reflexivity. Qed.

Example search_outside_coordinates :
  @searchLocation exampleBuiltins (Str.units "100, 100")
  = [ PreventDefault;
      Alert "Coordinates outside Pakistan boundaries!";
      ClearSearchInput ].
Proof. reflexivity. Qed.

Example search_partial_name :
  @searchLocation exampleBuiltins (Str.units "  ABAD")
  = [ PreventDefault;
      SetView 31.4504 73.1350 10;
      AddMarker 31.4504 73.1350 "Faisalabad, Punjab";
      ClearSearchInput ].
Proof. reflexivity. Qed.

Example search_pattern_backtracks :
  Search.coordMatch (Str.units "1.2.3,4")
  = Some (Search.capturesOf (Str.units "2.3", Str.units "4"))
  /\ Search.coordMatch (Str.units ".5,.6") = None
  /\ Search.coordMatch (Str.units "3 , 4") = None.
Proof. repeat split. Qed.

(** Blanks and letters outside ASCII: a no-break space separates the
    numbers of a pair and is trimmed at the ends; the Kelvin sign is a K. *)
Example search_beyond_ascii :
  @searchLocation exampleBuiltins
    (Str.units "30.5," ++ 160%N :: Str.units "70.25 -3,4")
  = [ PreventDefault;
      SetView 30.5 70.25 12;
      AddMarker 30.5 70.25 "Coordinates: #.####, #.####";
      ClearSearchInput ]
  /\ @searchLocation exampleBuiltins [160%N] = [PreventDefault]
  /\ @searchLocation exampleBuiltins (Str.units "lahore" ++ [160%N])
     = [ PreventDefault;
         SetView 31.5804 74.3587 10;
         AddMarker 31.5804 74.3587 "Lahore, Punjab";
         ClearSearchInput ]
  /\ @searchLocation exampleBuiltins (8490%N :: Str.units "arachi")
     = [ PreventDefault;
         SetView 24.8607 67.0011 10;
         AddMarker 24.8607 67.0011 "Karachi, Sindh";
         ClearSearchInput ].
Proof. repeat split. Qed.

(** A decimal is read as the nearest binary64 value: a latitude a hair
    above the bound reads as the bound and is accepted, the next value
    above it is rejected. *)
Example search_rounds_decimals :
  @searchLocation exampleBuiltins (Str.units "36.980000000000000001, 70")
  = [ PreventDefault;
      SetView 36.98 70 12;
      AddMarker 36.98 70 "Coordinates: #.####, #.####";
      ClearSearchInput ]
  /\ @searchLocation exampleBuiltins (Str.units "36.98000000000001, 70")
     = [ PreventDefault;
         Alert "Coordinates outside Pakistan boundaries!";
         ClearSearchInput ]
  /\ @searchLocation exampleBuiltins (Str.units "30, 60.87")
     = [ PreventDefault;
         SetView 30 60.87 12;
         AddMarker 30 60.87 "Coordinates: #.####, #.####";
         ClearSearchInput ].
Proof. vm_compute. repeat split. Qed.

Example click_outside_is_rejected :
  @clickHandler exampleBuiltins (Throw NetworkError) (fun _ => 0) ""
    40 69.3451
  = {| actions :=
         [ PreventDefault; StopPropagation;
           Alert "Please click within Pakistan boundaries!" ];
       uncaught := None |}.
Proof. reflexivity. Qed.

Example geofence_corners :
  GeoBounds.searchInside 23.69 60.87 = true
  /\ GeoBounds.searchInside 36.98 75.85 = true
  /\ GeoBounds.clickOutside 23.69 75.85 = false
  /\ GeoBounds.searchInside 23.6899 60.87 = false
  /\ GeoBounds.clickOutside 36.98 75.8501 = true.
Proof. repeat split. Qed.

(* ================================================================== *)
(** * Part III: further properties of the script                       *)
(* ================================================================== *)

(** ** The presenter on well-formed and on malformed data *)

Lemma bind_ok {A C : Type} (m : exc A) (k : A -> exc C) (c : C) :
  bind m k = Ok c -> exists a, m = Ok a /\ k a = Ok c.
Proof. destruct m as [a | e]; [intros H; now exists a | discriminate]. Qed.

Ltac bind_inv H :=
  let x := fresh "x" in
  let E := fresh "E" in
  apply bind_ok in H; destruct H as (x & E & H).

Lemma typeErrorOnly_ok {A : Type} (a : A) : typeErrorOnly (Ok a).
Proof. intros e H. discriminate. Qed.

Lemma typeErrorOnly_throw {A : Type} : typeErrorOnly (@Throw A TypeError).
Proof. now intros e [= <-]. Qed.

Lemma typeErrorOnly_bind {A C : Type} (m : exc A) (k : A -> exc C) :
  typeErrorOnly m -> (forall a, typeErrorOnly (k a)) ->
  typeErrorOnly (bind m k).
Proof.
  intros Hm Hk e. destruct m as [a | e']; cbn [bind].
  - apply Hk.
  - intros [= <-]. now apply Hm.
Qed.

Lemma typeErrorOnly_mapM {A C : Type} (f : A -> exc C) (l : list A) :
  (forall a, typeErrorOnly (f a)) -> typeErrorOnly (mapM f l).
Proof.
  intros Hf. induction l as [| x l IH]; cbn [mapM].
  - apply typeErrorOnly_ok.
  - apply typeErrorOnly_bind; [apply Hf | intros y].
    apply typeErrorOnly_bind; [exact IH | intros ys; apply typeErrorOnly_ok].
Qed.

Create HintDb presenter.
#[local] Hint Resolve typeErrorOnly_ok typeErrorOnly_throw : presenter.

Lemma typeErrorOnly_get (v : value) (k : string) :
  typeErrorOnly (JS.get v k).
Proof. destruct v; cbn; auto with presenter. Qed.

(** Induction on values that goes through the items of an array. *)
Lemma value_ind_items (P : value -> Prop) :
  P VUndefined -> P VNull -> (forall b, P (VBool b)) ->
  (forall q, P (VNum q)) -> (forall s, P (VStr s)) ->
  (forall l, Forall P l -> P (VArr l)) ->
  (forall fs, P (VObj fs)) ->
  forall v, P v.
Proof.
  intros Hu Hn Hb Hq Hs Ha Ho. fix IH 1.
  intros [| | b | q | s | l | fs];
    [exact Hu | exact Hn | apply Hb | apply Hq | apply Hs | | apply Ho].
  apply Ha. induction l as [| x l IHl];
    [constructor | constructor; [apply IH | exact IHl]].
Qed.

Lemma typeErrorOnly_toStr {B : Builtins} (v : value) :
  typeErrorOnly (JS.toStr v).
Proof.
  induction v as [| | [] | q | s | l Hl | fs] using value_ind_items;
    cbn [JS.toStr]; auto with presenter.
  - apply typeErrorOnly_bind; [| intros; apply typeErrorOnly_ok].
    induction Hl as [| x l Hx Hl IHl]; [apply typeErrorOnly_ok |].
    apply typeErrorOnly_bind.
    + destruct x; auto with presenter.
    + intros y. apply typeErrorOnly_bind; [exact IHl |].
      intros; apply typeErrorOnly_ok.
  - destruct (JS.hasKey "toString" fs); auto with presenter.
Qed.

Lemma typeErrorOnly_itemStr {B : Builtins} (v : value) :
  typeErrorOnly (JS.itemStr v).
Proof.
  destruct v; cbn [JS.itemStr]; auto with presenter;
    apply typeErrorOnly_toStr.
Qed.

Lemma typeErrorOnly_join {B : Builtins} (v : value) (sep : string) :
  typeErrorOnly (JS.join v sep).
Proof.
  destruct v; cbn [JS.join]; auto with presenter.
  apply typeErrorOnly_bind; [| intros; apply typeErrorOnly_ok].
  apply typeErrorOnly_mapM, typeErrorOnly_itemStr.
Qed.

Lemma typeErrorOnly_toFixed {B : Builtins} (v : value) (d : nat) :
  typeErrorOnly (JS.toFixed v d).
Proof. destruct v; cbn; auto with presenter. Qed.

Lemma typeErrorOnly_gtZero {B : Builtins} (v : value) :
  typeErrorOnly (JS.gtZero v).
Proof.
  destruct v; cbn [JS.gtZero]; auto with presenter.
  - apply typeErrorOnly_bind; [apply typeErrorOnly_toStr |].
    intros; apply typeErrorOnly_ok.
  - destruct (JS.hasKey "toString" fields); auto with presenter.
Qed.

Lemma typeErrorOnly_hole {B : Builtins} (v : value) (k : string) :
  typeErrorOnly (hole v k).
Proof.
  apply typeErrorOnly_bind; [apply typeErrorOnly_get |].
  intros; apply typeErrorOnly_toStr.
Qed.

Lemma typeErrorOnly_renderCrop {B : Builtins} (crop : value) :
  typeErrorOnly (renderCrop crop).
Proof.
  unfold renderCrop.
  repeat (apply typeErrorOnly_bind; [apply typeErrorOnly_hole | intros ?]).
  apply typeErrorOnly_bind; [apply typeErrorOnly_get | intros pm].
  apply typeErrorOnly_bind; [| intros; apply typeErrorOnly_ok].
  destruct (JS.truthy pm); [apply typeErrorOnly_join | apply typeErrorOnly_ok].
Qed.

Lemma typeErrorOnly_renderCrops {B : Builtins} (recs : value) :
  typeErrorOnly (renderCrops recs).
Proof.
  unfold renderCrops. apply typeErrorOnly_bind.
  - destruct (JS.truthy recs); [| apply typeErrorOnly_ok].
    apply typeErrorOnly_bind; [apply typeErrorOnly_get |].
    intros; apply typeErrorOnly_gtZero.
  - intros [|]; [| apply typeErrorOnly_ok].
    apply typeErrorOnly_bind; [| intros; apply typeErrorOnly_ok].
    destruct recs; cbn [JS.map]; auto with presenter.
    apply typeErrorOnly_mapM, typeErrorOnly_renderCrop.
Qed.

Lemma typeErrorOnly_present {B : Builtins} (data isCached : value) :
  typeErrorOnly (createPopupContent data isCached).
Proof.
  unfold createPopupContent.
  repeat (apply typeErrorOnly_bind; [apply typeErrorOnly_get | intros ?]).
  apply typeErrorOnly_bind; [apply typeErrorOnly_renderCrops | intros ?].
  apply typeErrorOnly_bind; [apply typeErrorOnly_get | intros ?].
  apply typeErrorOnly_bind; [apply typeErrorOnly_toStr | intros ?].
  apply typeErrorOnly_bind; [apply typeErrorOnly_get | intros ?].
  apply typeErrorOnly_bind; [apply typeErrorOnly_toFixed | intros ?].
  apply typeErrorOnly_bind; [apply typeErrorOnly_get | intros ?].
  apply typeErrorOnly_bind; [apply typeErrorOnly_toFixed | intros ?].
  repeat (apply typeErrorOnly_bind; [apply typeErrorOnly_hole | intros ?]).
  apply typeErrorOnly_ok.
Qed.

(** What a popup the presenter returns tells about its arguments. *)
Lemma present_ok_inv
  {B : Builtins} (data isCached : value) (p : popup) :
  createPopupContent data isCached = Ok p ->
  cacheBadge p = JS.truthy isCached
  /\ exists weather soil recs location : value,
       JS.get data "weather" = Ok weather
       /\ JS.get data "soil" = Ok soil
       /\ JS.get data "crop_recommendations" = Ok recs
       /\ JS.get data "location" = Ok location
       /\ renderCrops recs = Ok (cropSection p)
       /\ (exists la, JS.get location "latitude" = Ok (VNum la)
                      /\ latitude p = Number_toFixed la 4)
       /\ (exists lo, JS.get location "longitude" = Ok (VNum lo)
                      /\ longitude p = Number_toFixed lo 4)
       /\ hole weather "temperature" = Ok (temperature p)
       /\ hole soil "ph" = Ok (ph p).
Proof.
  unfold createPopupContent. intros H.
  do 4 bind_inv H. cbv zeta in H. do 17 bind_inv H.
  injection H as <-. cbn [cacheBadge cropSection latitude longitude
                            temperature ph].
  split; [reflexivity |].
  exists x, x0, x1, x2. repeat (split; [assumption |]).
  split; [| split; [| split; assumption]].
  - destruct x6; try discriminate E7. cbn in E7. injection E7 as <-.
    eexists. split; [exact E6 | reflexivity].
  - destruct x8; try discriminate E9. cbn in E9. injection E9 as <-.
    eexists. split; [exact E8 | reflexivity].
Qed.

Lemma present_encode
  {B : Builtins} (r : Payload.AnalysisResult) (cached : bool) :
  createPopupContent (Payload.encode r) (VBool cached)
  = Ok (popupOf r cached).
Proof.
  unfold createPopupContent, Payload.encode, popupOf.
  destruct (Payload.crop_recommendations r) as [[| c l] |] eqn:E.
  - cbn. now destruct (Payload.loc_region r =? "")%string.
  - cbn [app JS.get JS.lookup String.eqb Ascii.eqb Bool.eqb bind].
    rewrite renderCrops_list.
    cbn. now destruct (Payload.loc_region r =? "")%string.
  - cbn. now destruct (Payload.loc_region r =? "")%string.
Qed.

Lemma regionByThreshold_truthy (lat : Q) :
  JS.truthy (VStr (regionByThreshold lat)) = true.
Proof.
  unfold regionByThreshold.
  destruct (Qlt_le_dec 31 lat); [reflexivity |].
  destruct (Qlt_le_dec 27 lat); reflexivity.
Qed.

Lemma present_demo
  {B : Builtins} (random : nat -> Q) (now : string) (lat lon : Q) :
  createPopupContent (createDemoData random now lat lon) (VBool false)
  = Ok (demoPopup random lat lon).
Proof.
  unfold createDemoData. rewrite region_threshold.
  unfold createPopupContent.
  cbn [JS.get JS.lookup String.eqb Ascii.eqb Bool.eqb bind].
  rewrite regionByThreshold_truthy. reflexivity.
Qed.

Lemma hole_needs_object {B : Builtins} (v : value) (k s : string) :
  hole v k = Ok s -> v <> VUndefined /\ v <> VNull.
Proof. destruct v; try discriminate; split; discriminate. Qed.

Lemma present_missing_section
  {B : Builtins} (data isCached : value) :
  unreadable (JS.get data "location")
  \/ unreadable (JS.get data "weather")
  \/ unreadable (JS.get data "soil") ->
  createPopupContent data isCached = Throw TypeError.
Proof.
  intros Hbad.
  destruct (createPopupContent data isCached) as [p | e] eqn:E.
  - exfalso. apply present_ok_inv in E
      as (_ & w & so & re & lo & Hw & Hs & _ & Hl & _ & (la & Hla & _)
          & _ & Ht & Hp).
    apply hole_needs_object in Ht as [Ht1 Ht2].
    apply hole_needs_object in Hp as [Hp1 Hp2].
    assert (Hlo : lo <> VUndefined /\ lo <> VNull)
      by (destruct lo; try discriminate; split; discriminate).
    destruct Hlo as [Hl1 Hl2].
    destruct Hbad as [H | [H | H]];
      [rewrite Hl in H | rewrite Hw in H | rewrite Hs in H];
      destruct H as [H | [H | H]]; congruence.
  - f_equal. exact (typeErrorOnly_present data isCached e E).
Qed.

(** ** The presenter on a payload without its sections *)



(** ** The success path of the click handler *)

(** X2 -- For a click inside the geofence answered with a success status
    and a well-formed envelope, the handler fills the popup with the
    payload as received: the badge is the envelope's [cached] flag, an
    empty region is shown as "Pakistan", the coordinates are the
    payload's (not the click's) with four decimals. Nothing is logged,
    and the random source and the clock play no part. *)
Theorem click_shows_server_payload
  {B : Builtins} (resp : response) (envelope : value)
  (r : Payload.AnalysisResult) (cached : bool)
  (random : nat -> Q) (now : string) (lat lon : Q) :
  GeoBounds.clickOutside lat lon = false ->
  ok resp = true ->
  json resp = Ok envelope ->
  JS.get envelope "cached" = Ok (VBool cached) ->
  JS.get envelope "data" = Ok (Payload.encode r) ->
  clickHandler (Ok resp) random now lat lon
  = {| actions :=
         [ PreventDefault; StopPropagation;
           OpenLoadingPopup lat lon; Fetch lat lon;
           SetContent (popupOf r cached) ];
       uncaught := None |}.
Proof.
  intros Hin Hok Hj Hc Hd.
  unfold clickHandler, tryBlock. cbn [bind].
  rewrite Hin, Hok, Hj. cbn [negb bind].
  rewrite Hc. cbn [bind]. rewrite Hd. cbn [bind].
  now rewrite present_encode.
Qed.

Lemma click_shows_server_payload_witness :
  let envelope :=
    VObj [("cached", VBool true); ("data", Payload.encode sampleResult)] in
  GeoBounds.clickOutside 30.3753 69.3451 = false
  /\ @clickHandler exampleBuiltins
       (Ok {| ok := true; json := Ok envelope |})
       (fun _ => 1 # 2) "" 30.3753 69.3451
     = {| actions :=
            [ PreventDefault; StopPropagation;
              OpenLoadingPopup 30.3753 69.3451; Fetch 30.3753 69.3451;
              SetContent (@popupOf exampleBuiltins sampleResult true) ];
          uncaught := None |}.
Proof.
  cbv zeta.
  assert (Hin : GeoBounds.clickOutside 30.3753 69.3451 = false)
    by reflexivity.
  split; [exact Hin |].
  apply (@click_shows_server_payload exampleBuiltins
           {| ok := true;
              json := Ok (VObj [("cached", VBool true);
                                ("data", Payload.encode sampleResult)]) |}
           (VObj [("cached", VBool true);
                  ("data", Payload.encode sampleResult)])
           sampleResult true (fun _ => 1 # 2) "" 30.3753 69.3451 Hin);
    reflexivity.
Defined.

(** ** What the fallback shows *)


(** ** What a returned popup tells about the payload *)

(** X4 -- Whenever the presenter returns a popup, the badge is shown
    exactly when the flag it was given is truthy (so a missing flag
    gives no badge), and the latitude and longitude of the payload's
    location were numbers, shown with four decimals: a payload whose
    coordinates are strings or missing is never rendered. *)
Theorem popup_reflects_payload
  {B : Builtins} (data isCached : value) (p : popup) :
  createPopupContent data isCached = Ok p ->
  cacheBadge p = JS.truthy isCached
  /\ exists (location : value) (la lo : Q),
       JS.get data "location" = Ok location
       /\ JS.get location "latitude" = Ok (VNum la)
       /\ JS.get location "longitude" = Ok (VNum lo)
       /\ latitude p = Number_toFixed la 4
       /\ longitude p = Number_toFixed lo 4.
Proof.
  intros H. apply present_ok_inv in H
    as (Hb & w & so & re & loc & _ & _ & _ & Hl & _
        & (la & Hla & Hla') & (lo & Hlo & Hlo') & _).
  split; [exact Hb |]. exists loc, la, lo. repeat split; assumption.
Qed.

Lemma popup_reflects_payload_witness :
  @createPopupContent exampleBuiltins (Payload.encode sampleResult)
    VUndefined
  = Ok (@popupOf exampleBuiltins sampleResult false)
  /\ cacheBadge (@popupOf exampleBuiltins sampleResult false)
     = JS.truthy VUndefined
  /\ exists (location : value) (la lo : Q),
       JS.get (Payload.encode sampleResult) "location" = Ok location
       /\ JS.get location "latitude" = Ok (VNum la)
       /\ JS.get location "longitude" = Ok (VNum lo)
       /\ latitude (@popupOf exampleBuiltins sampleResult false)
          = @Number_toFixed exampleBuiltins la 4
       /\ longitude (@popupOf exampleBuiltins sampleResult false)
          = @Number_toFixed exampleBuiltins lo 4.
Proof.
  assert (H : @createPopupContent exampleBuiltins
                (Payload.encode sampleResult) VUndefined
              = Ok (@popupOf exampleBuiltins sampleResult false))
    by reflexivity.
  split; [exact H |].
  exact (@popup_reflects_payload exampleBuiltins _ _ _ H).
Defined.

(** ** One bad recommendation spoils the popup *)

Lemma mapM_stops {A C : Type} (f : A -> exc C) (good : list A) (bad : A)
  (rest : list A) (e : error) :
  (forall a, In a good -> exists c, f a = Ok c) ->
  f bad = Throw e ->
  mapM f (good ++ bad :: rest)%list = Throw e.
Proof.
  intros Hg Hb. induction good as [| a good IH]; cbn [app mapM].
  - now rewrite Hb.
  - destruct (Hg a (or_introl eq_refl)) as [c ->]. cbn [bind].
    rewrite IH; [reflexivity |]. intros x Hx. apply Hg. now right.
Qed.

Lemma positive_length_app {A : Type} (l : list A) (x : A) (r : list A) :
  Num.gtb (Num.ofNat (List.length (l ++ x :: r)%list)) 0 = true.
Proof.
  destruct l as [| y l]; cbn [app]; apply positive_length.
Qed.

(** X5 -- When the recommendations are an array that holds a [null] (or
    [undefined]) after any number of well-formed entries, the presenter
    throws a [TypeError] whatever the rest of the payload is: no entry
    is shown, not even the well-formed ones. *)
Theorem null_recommendation_spoils_popup
  {B : Builtins} (fields : list (string * value)) (isCached : value)
  (good : list Payload.CropRecommendation) (bad : value)
  (rest : list value) :
  bad = VNull \/ bad = VUndefined ->
  JS.get (VObj fields) "crop_recommendations"
  = Ok (VArr (List.map Payload.encodeCrop good ++ bad :: rest)%list) ->
  createPopupContent (VObj fields) isCached = Throw TypeError.
Proof.
  intros Hbad Hrecs.
  assert (R : renderCrops
                (VArr (List.map Payload.encodeCrop good ++ bad :: rest)%list)
              = Throw TypeError).
  { unfold renderCrops.
    cbn [JS.truthy JS.get String.eqb Ascii.eqb Bool.eqb bind JS.gtZero].
    rewrite positive_length_app. cbn [bind JS.map].
    rewrite (mapM_stops renderCrop _ bad rest TypeError); [reflexivity | |].
    - intros a Ha. apply in_map_iff in Ha as (c & <- & _).
      exists (entryOf c). apply renderCrop_encode.
    - now destruct Hbad as [-> | ->]. }
  unfold createPopupContent.
  cbn [JS.get bind] in *. injection Hrecs as ->. now rewrite R.
Qed.

Lemma null_recommendation_spoils_popup_witness :
  let crops :=
    (List.map Payload.encodeCrop
       [ {| Payload.crop_name := "Cotton";
            Payload.suitability_score := 8;
            Payload.irrigation_need := 700;
            Payload.fertilizer_npk := "100-50-50";
            Payload.season := "Kharif";
            Payload.planting_months := ["April"; "May"] |} ]
     ++ [VNull])%list in
  let fields :=
    [ ("location", VObj [("latitude", VNum 30); ("longitude", VNum 70)]);
      ("weather", VObj []); ("soil", VObj []);
      ("crop_recommendations", VArr crops) ] in
  JS.get (VObj fields) "crop_recommendations" = Ok (VArr crops)
  /\ @createPopupContent exampleBuiltins (VObj fields) (VBool true)
     = Throw TypeError.
Proof.
  cbv zeta. split; [reflexivity |].
  eapply (@null_recommendation_spoils_popup exampleBuiltins _ _
            [ {| Payload.crop_name := "Cotton";
                 Payload.suitability_score := 8;
                 Payload.irrigation_need := 700;
                 Payload.fertilizer_npk := "100-50-50";
                 Payload.season := "Kharif";
                 Payload.planting_months := ["April"; "May"] |} ]
            VNull []).
  - left. reflexivity.
  - reflexivity.
Defined.

(** ** The planting line of an entry *)

(** X6 -- Whenever an entry is rendered, its planting line is "N/A"
    exactly in the case where the recommendation's [planting_months] is
    falsy (missing, [null], empty string, zero, [false]); otherwise the
    months were an array and the line is its items joined by a comma and
    a blank, a [null] item printing as nothing. *)
Theorem planting_line
  {B : Builtins} (crop : value) (e : cropEntry) :
  renderCrop crop = Ok e ->
  exists months : value,
    JS.get crop "planting_months" = Ok months
    /\ ((JS.truthy months = false /\ entry_plant e = "N/A")
        \/ (exists (items : list value) (texts : list string),
              months = VArr items
              /\ mapM JS.itemStr items = Ok texts
              /\ entry_plant e = String.concat ", " texts)).
Proof.
  unfold renderCrop. intros H. do 7 bind_inv H. injection H as <-.
  cbn [entry_plant]. exists x4. split; [assumption |].
  destruct (JS.truthy x4) eqn:T.
  - right. destruct x4; try discriminate E5. cbn [JS.join] in E5.
    bind_inv E5. injection E5 as <-. now exists items, x4.
  - left. injection E5 as <-. now split.
Qed.

Lemma planting_line_witness :
  let crop := VObj [("crop_name", VStr "Maize"); ("planting_months", VNull)] in
  let e := {| entry_name := "Maize"; entry_score := "undefined";
              entry_water := "undefined"; entry_npk := "undefined";
              entry_season := "undefined"; entry_plant := "N/A" |} in
  @renderCrop exampleBuiltins crop = Ok e
  /\ exists months : value,
       JS.get crop "planting_months" = Ok months
       /\ ((JS.truthy months = false /\ entry_plant e = "N/A")
           \/ (exists (items : list value) (texts : list string),
                 months = VArr items
                 /\ mapM (@JS.itemStr exampleBuiltins) items = Ok texts
                 /\ entry_plant e = String.concat ", " texts)).
Proof.
  cbv zeta.
  assert (H : @renderCrop exampleBuiltins
                (VObj [("crop_name", VStr "Maize");
                       ("planting_months", VNull)])
              = Ok {| entry_name := "Maize"; entry_score := "undefined";
                      entry_water := "undefined"; entry_npk := "undefined";
                      entry_season := "undefined"; entry_plant := "N/A" |})
    by reflexivity.
  split; [exact H |].
  exact (@planting_line exampleBuiltins _ _ H).
Defined.

(** ** The ranges of the synthesized weather and soil *)

Lemma scaled_unit_strict (base width r : Q) :
  (0 < width -> 0 <= r -> r < 1 ->
   base <= base + r * width /\ base + r * width < base + width)%Q.
Proof.
  intros Hw H0 H1. split.
  - apply (scaled_unit_range base width r);
      [now apply Qlt_le_weak | assumption | assumption].
  - apply Qplus_lt_r.
    rewrite <- (Qmult_1_l width) at 2.
    now apply Qmult_lt_compat_r.
Qed.

Lemma draw_lower (random : nat -> Q) (n : nat) (base width : Q) :
  unitSource random -> (0 < width)%Q ->
  (base <= base + random n * width)%Q.
Proof.
  intros Hr Hw.
  apply (scaled_unit_strict base width (random n) Hw); apply (Hr n).
Qed.

Lemma draw_upper (random : nat -> Q) (n : nat) (base width hi : Q) :
  unitSource random -> (0 < width)%Q -> (base + width <= hi)%Q ->
  (base + random n * width < hi)%Q.
Proof.
  intros Hr Hw Hhi. eapply Qlt_le_trans; [| exact Hhi].
  apply (scaled_unit_strict base width (random n) Hw); apply (Hr n).
Qed.

(** X7 -- For every coordinate and every random source in [0, 1), the
    synthesized result echoes the coordinate, and its weather and soil
    numbers lie between the bounds of their formulas, both included (a
    draw next to 1 can round to the upper one): temperature in [25, 40],
    humidity in [40, 80], rainfall in [0, 10], wind speed in [5, 20], pH
    in [6.5, 8.5], organic matter in [1, 3], nitrogen in [0.02, 0.07],
    phosphorus in [8, 23], potassium in [100, 250]; the soil type is
    "Alluvial" and the weather carries the clock's date. *)
Theorem demo_weather_and_soil_ranges
  (random : nat -> Q) (now : string) (lat lon : Q) :
  unitSource random ->
  exists te hu ra wi p om ni ps po : Q,
    JS.get (createDemoData random now lat lon) "location"
    = Ok (VObj [ ("latitude", VNum lat); ("longitude", VNum lon);
                 ("region", VStr (regionByThreshold lat)) ])
    /\ JS.get (createDemoData random now lat lon) "weather"
       = Ok (VObj [ ("temperature", VNum te); ("humidity", VNum hu);
                    ("rainfall", VNum ra); ("wind_speed", VNum wi);
                    ("date", VStr now) ])
    /\ JS.get (createDemoData random now lat lon) "soil"
       = Ok (VObj [ ("ph", VNum p); ("organic_matter", VNum om);
                    ("nitrogen", VNum ni); ("phosphorus", VNum ps);
                    ("potassium", VNum po); ("soil_type", VStr "Alluvial") ])
    /\ (25 <= te /\ te <= 40)%Q /\ (40 <= hu /\ hu <= 80)%Q
    /\ (0 <= ra /\ ra <= 10)%Q /\ (5 <= wi /\ wi <= 20)%Q
    /\ (6.5 <= p /\ p <= 8.5)%Q /\ (1 <= om /\ om <= 3)%Q
    /\ (0.02 <= ni /\ ni <= 0.07)%Q /\ (8 <= ps /\ ps <= 23)%Q
    /\ (100 <= po /\ po <= 250)%Q.
Proof.
  intros Hr.
  exists (25 + random 0%nat * 15)%Q, (40 + random 1%nat * 40)%Q,
    (random 2%nat * 10)%Q, (5 + random 3%nat * 15)%Q,
    (6.5 + random 4%nat * 2)%Q, (1 + random 5%nat * 2)%Q,
    (0.02 + random 6%nat * 0.05)%Q, (8 + random 7%nat * 15)%Q,
    (100 + random 8%nat * 150)%Q.
  split; [cbn; now rewrite region_threshold |].
  split; [reflexivity | split; [reflexivity |]].
  repeat match goal with |- _ /\ _ => split end;
    try (apply draw_lower; [exact Hr | reflexivity]);
    try (apply Qlt_le_weak, draw_upper;
         [exact Hr | reflexivity | vm_compute; discriminate]).
  - apply Qmult_le_0_compat; [apply (Hr 2%nat) | discriminate].
  - apply Qlt_le_weak. rewrite <- (Qmult_1_l 10) at 2.
    apply Qmult_lt_compat_r; [reflexivity | apply (Hr 2%nat)].
Qed.

Lemma demo_weather_and_soil_ranges_witness :
  unitSource (fun _ => 1 # 2)
  /\ exists te hu ra wi p om ni ps po : Q,
       JS.get (createDemoData (fun _ => 1 # 2) "now" 30 70) "location"
       = Ok (VObj [ ("latitude", VNum 30); ("longitude", VNum 70);
                    ("region", VStr (regionByThreshold 30)) ])
       /\ JS.get (createDemoData (fun _ => 1 # 2) "now" 30 70) "weather"
          = Ok (VObj [ ("temperature", VNum te); ("humidity", VNum hu);
                       ("rainfall", VNum ra); ("wind_speed", VNum wi);
                       ("date", VStr "now") ])
       /\ JS.get (createDemoData (fun _ => 1 # 2) "now" 30 70) "soil"
          = Ok (VObj [ ("ph", VNum p); ("organic_matter", VNum om);
                       ("nitrogen", VNum ni); ("phosphorus", VNum ps);
                       ("potassium", VNum po);
                       ("soil_type", VStr "Alluvial") ])
       /\ (25 <= te /\ te <= 40)%Q /\ (40 <= hu /\ hu <= 80)%Q
       /\ (0 <= ra /\ ra <= 10)%Q /\ (5 <= wi /\ wi <= 20)%Q
       /\ (6.5 <= p /\ p <= 8.5)%Q /\ (1 <= om /\ om <= 3)%Q
       /\ (0.02 <= ni /\ ni <= 0.07)%Q /\ (8 <= ps /\ ps <= 23)%Q
       /\ (100 <= po /\ po <= 250)%Q.
Proof.
  assert (H : unitSource (fun _ => 1 # 2)).
  { intros n. split; [discriminate | reflexivity]. }
  split; [exact H |].
  exact (demo_weather_and_soil_ranges (fun _ => 1 # 2) "now" 30 70 H).
Defined.

(** ** The click handler as a whole *)

(** X8 -- For every answer of the network, in or out of the geofence, no
    exception leaves the click handler; it sends no request for a click
    outside the geofence and exactly one, for the clicked coordinates,
    otherwise (no retry); and its last action is visible: the rejection
    alert or the filling of the popup, so the loading popup never stays. *)
Theorem click_never_throws
  {B : Builtins} (fetchResult : exc response) (random : nat -> Q)
  (now : string) (lat lon : Q) :
  let run := clickHandler fetchResult random now lat lon in
  uncaught run = None
  /\ List.filter isFetch (actions run)
     = (if GeoBounds.clickOutside lat lon then [] else [Fetch lat lon])
  /\ exists (earlier : list action) (final : action),
       actions run = (earlier ++ [final])%list
       /\ (final = Alert "Please click within Pakistan boundaries!"
           \/ exists p, final = SetContent p).
Proof.
  cbv zeta. unfold clickHandler, catchBlock.
  destruct (GeoBounds.clickOutside lat lon).
  - cbn. repeat split. eexists [_; _], _. split; [reflexivity | now left].
  - destruct (tryBlock fetchResult) as [p | e].
    + cbn. repeat split.
      eexists [_; _; _; _], _. split; [reflexivity | right; now eexists].
    + rewrite present_demo. cbn. repeat split.
      eexists [_; _; _; _; _], _. split; [reflexivity | right; now eexists].
Qed.

(** ** The search handler as a whole *)

Lemma clickOutside_negb (lat lon : Q) :
  GeoBounds.clickOutside lat lon = negb (GeoBounds.searchInside lat lon).
Proof.
  unfold GeoBounds.clickOutside, GeoBounds.searchInside, Num.gtb, Num.geb.
  rewrite !ltb_nle, !negb_andb. reflexivity.
Qed.

Lemma cities_inside (c : city) :
  In c majorCities -> GeoBounds.searchInside (lat c) (lon c) = true.
Proof.
  intros H. simpl in H.
  repeat (destruct H as [<- | H]; [reflexivity |]). destruct H.
Qed.

Lemma search_targets
  {B : Builtins} (input : list N) (a : action) (la lo : Q) :
  In a (searchLocation input) -> target a = Some (la, lo) ->
  GeoBounds.searchInside la lo = true.
Proof.
  unfold searchLocation, searchLocationIn.
  destruct (Str.isEmpty (Str.trim input)).
  { intros [<- | []]. discriminate. }
  intros [<- | Ha]; [discriminate |].
  apply in_app_or in Ha as [Ha | [<- | []]]; [| discriminate].
  destruct (Search.coordMatch (Str.trim input)) as [m |].
  - destruct (Search.parseGroup 1 m) as [x |];
      [| destruct Ha as [<- | []]; discriminate].
    destruct (Search.parseGroup 2 m) as [y |];
      [| destruct Ha as [<- | []]; discriminate].
    destruct (GeoBounds.searchInside x y) eqn:E;
      [| destruct Ha as [<- | []]; discriminate].
    destruct Ha as [<- | [<- | []]]; now intros [= <- <-].
  - destruct (find (cityMatches (Str.trim input)) majorCities) as [c |] eqn:F;
      [| destruct Ha as [<- | []]; discriminate].
    apply find_some in F as [Hc _].
    destruct Ha as [<- | [<- | []]]; intros [= <- <-];
      now apply cities_inside.
Qed.

(** ** The search never leads outside the geofence *)

(** X9 -- Whatever the text of the search box, and whether the search is
    started by the button or by the Enter key, every point the handler
    recenters the map on or drops a marker at lies inside the geofence:
    it passes the search test and would not be rejected by the click
    handler. Keys other than Enter start nothing. *)
Theorem search_stays_inside_geofence
  {B : Builtins} (key : string) (input : list N) (a : action) (la lo : Q) :
  In a (searchLocation input) \/ In a (keypressHandler key input) ->
  target a = Some (la, lo) ->
  GeoBounds.searchInside la lo = true
  /\ GeoBounds.clickOutside la lo = false.
Proof.
  intros Ha Ht.
  assert (H : In a (searchLocation input)).
  { destruct Ha as [Ha | Ha]; [exact Ha |].
    unfold keypressHandler in Ha.
    destruct (key =? "Enter")%string; [| destruct Ha].
    destruct Ha as [<- | Ha]; [discriminate Ht | exact Ha]. }
  pose proof (search_targets input a la lo H Ht) as E.
  split; [exact E | now rewrite clickOutside_negb, E].
Qed.

Lemma search_stays_inside_geofence_witness :
  In (SetView 31.4504 73.1350 10)
    (@searchLocation exampleBuiltins (Str.units "abad"))
  /\ GeoBounds.searchInside 31.4504 73.1350 = true
  /\ GeoBounds.clickOutside 31.4504 73.1350 = false.
Proof.
  assert (H : In (SetView 31.4504 73.1350 10)
                (@searchLocation exampleBuiltins (Str.units "abad"))).
  { right. left. reflexivity. }
  split; [exact H |].
  exact (@search_stays_inside_geofence exampleBuiltins "Enter"
           (Str.units "abad") _ 31.4504 73.1350 (or_introl H) eq_refl).
Defined.

(** ** The outcome of a non-blank search *)

(** X10 -- For every registry and every input that is not blank, the
    handler prevents the default action, produces exactly one outcome
    and clears the search box: the outcome is a single alert (and then
    the map is not touched), or a recentering followed by a marker at
    the same point, with zoom 12 for a coordinate pair and zoom 10 for a
    city. *)
Theorem search_single_outcome
  {B : Builtins} (cities : list city) (input : list N) :
  Str.trim input <> [] ->
  exists outcome : list action,
    searchLocationIn cities input
    = (PreventDefault :: outcome ++ [ClearSearchInput])%list
    /\ ((exists msg, outcome = [Alert msg])
        \/ (exists la lo zoom label,
              outcome = [SetView la lo zoom; AddMarker la lo label]
              /\ ((zoom = 12%nat
                   /\ Search.coordMatch (Str.trim input) <> None)
                  \/ (zoom = 10%nat
                      /\ Search.coordMatch (Str.trim input) = None)))).
Proof.
  intros Hne.
  assert (E : Str.isEmpty (Str.trim input) = false)
    by (destruct (Str.trim input); [congruence | reflexivity]).
  unfold searchLocationIn. rewrite E.
  eexists. split; [reflexivity |].
  destruct (Search.coordMatch (Str.trim input)) as [m |].
  - destruct (Search.parseGroup 1 m) as [x |]; [| left; now eexists].
    destruct (Search.parseGroup 2 m) as [y |]; [| left; now eexists].
    destruct (GeoBounds.searchInside x y); [| left; now eexists].
    right. do 4 eexists. split; [reflexivity |]. left. now split.
  - destruct (find _ cities) as [c |]; [| left; now eexists].
    right. do 4 eexists. split; [reflexivity |]. right. now split.
Qed.

Lemma search_single_outcome_witness :
  Str.trim (160%N :: Str.units " quetta") <> []
  /\ exists outcome : list action,
       @searchLocationIn exampleBuiltins majorCities
         (160%N :: Str.units " quetta")
       = (PreventDefault :: outcome ++ [ClearSearchInput])%list
       /\ ((exists msg, outcome = [Alert msg])
           \/ (exists la lo zoom label,
                 outcome = [SetView la lo zoom; AddMarker la lo label]
                 /\ ((zoom = 12%nat
                      /\ Search.coordMatch
                           (Str.trim (160%N :: Str.units " quetta"))
                         <> None)
                     \/ (zoom = 10%nat
                         /\ Search.coordMatch
                              (Str.trim (160%N :: Str.units " quetta"))
                            = None)))).
Proof.
  assert (H : Str.trim (160%N :: Str.units " quetta") <> [])
    by (vm_compute; discriminate).
  split; [exact H |].
  exact (@search_single_outcome exampleBuiltins majorCities
           (160%N :: Str.units " quetta") H).
Defined.

(** ** Blanks around the query *)

Section BlankFacts.
Local Open Scope list_scope.

Lemma dropWhileEnd_all (p : N -> bool) (r : list N) :
  Str.allb p r = true -> Str.dropWhileEnd p r = [].
Proof.
  induction r as [| c r IH]; [reflexivity |]. cbn [Str.allb Str.dropWhileEnd].
  intros H. apply andb_true_iff in H as [Hc Hr]. now rewrite (IH Hr), Hc.
Qed.

Lemma dropWhileEnd_app_all (p : N -> bool) (x r : list N) :
  Str.allb p r = true ->
  Str.dropWhileEnd p (x ++ r) = Str.dropWhileEnd p x.
Proof.
  intros Hr. induction x as [| c x IH]; cbn [app Str.dropWhileEnd].
  - now apply dropWhileEnd_all.
  - now rewrite IH.
Qed.

Lemma dropWhile_app_all (p : N -> bool) (l x : list N) :
  Str.allb p l = true -> Str.dropWhile p (l ++ x) = Str.dropWhile p x.
Proof.
  induction l as [| c l IH]; [reflexivity |]. cbn [Str.allb app].
  intros H. apply andb_true_iff in H as [Hc Hl].
  cbn [Str.dropWhile]. rewrite Hc. now apply IH.
Qed.

Lemma trim_padded (l s r : list N) :
  Str.allb Str.isSpace l = true -> Str.allb Str.isSpace r = true ->
  Str.trim (l ++ s ++ r) = Str.trim s.
Proof.
  intros Hl Hr. unfold Str.trim. rewrite (dropWhile_app_all _ l _ Hl).
  induction s as [| c s IH]; cbn [app Str.dropWhile].
  - now rewrite (dropWhile_all _ _ Hr).
  - destruct (Str.isSpace c); [exact IH |].
    change (c :: s ++ r) with ((c :: s) ++ r).
    now apply dropWhileEnd_app_all.
Qed.

End BlankFacts.

(** X11 -- Blanks (spaces, tabs, line breaks) before and after the text
    of the search box change nothing: the handler does exactly what it
    does on the text without them, for every registry. *)
Theorem search_ignores_surrounding_blanks
  {B : Builtins} (cities : list city) (before text after : list N) :
  Str.allb Str.isSpace before = true ->
  Str.allb Str.isSpace after = true ->
  searchLocationIn cities (before ++ text ++ after)
  = searchLocationIn cities text.
Proof.
  intros Hb Ha. unfold searchLocationIn. now rewrite (trim_padded _ _ _ Hb Ha).
Qed.

Lemma search_ignores_surrounding_blanks_witness :
  Str.allb Str.isSpace [32; 160]%N = true
  /\ Str.allb Str.isSpace [9; 32]%N = true
  /\ @searchLocationIn exampleBuiltins majorCities
       ([32; 160]%N ++ Str.units "multan" ++ [9; 32]%N)
     = @searchLocationIn exampleBuiltins majorCities (Str.units "multan").
Proof.
  split; [reflexivity | split; [reflexivity |]].
  apply (@search_ignores_surrounding_blanks exampleBuiltins majorCities
           [32; 160]%N (Str.units "multan") [9; 32]%N); reflexivity.
Defined.

(** ** A query without a comma *)

Lemma allb_app_inv (p : N -> bool) (x y : list N) :
  Str.allb p (x ++ y)%list = true ->
  Str.allb p x = true /\ Str.allb p y = true.
Proof.
  induction x as [| c x IH]; cbn [app Str.allb]; [now split |].
  intros H. apply andb_true_iff in H as [Hc H].
  destruct (IH H) as [Hx Hy]. now rewrite Hc, Hx.
Qed.

(** X12 -- A query without a comma is never read as coordinates,
    whatever digits it holds: the pattern does not match it, so a
    non-blank one always goes to the city lookup and can only recenter
    on a registered city. *)
Theorem query_without_comma_is_a_city_lookup
  {B : Builtins} (cities : list city) (input : list N) :
  Str.allb notComma (Str.trim input) = true ->
  Search.coordMatch (Str.trim input) = None
  /\ forall la lo zoom,
       In (SetView la lo zoom) (searchLocationIn cities input) ->
       exists c, In c cities /\ la = lat c /\ lo = lon c /\ zoom = 10%nat.
Proof.
  intros Hc.
  assert (Hn : Search.coordMatch (Str.trim input) = None).
  { rewrite coordMatch_scan.
    destruct (Search.scan (Str.trim input)) as [[a b] |] eqn:S;
      [| reflexivity].
    exfalso. apply scan_sound in S as (pre & ws & post & E & _).
    rewrite E in Hc.
    apply allb_app_inv in Hc as [_ Hc].
    apply allb_app_inv in Hc as [_ Hc].
    discriminate Hc. }
  split; [exact Hn |].
  intros la lo zoom. unfold searchLocationIn. rewrite Hn.
  destruct (Str.isEmpty (Str.trim input)).
  { intros [H | []]. discriminate. }
  intros [H | H]; [discriminate |].
  apply in_app_or in H as [H | [H | []]]; [| discriminate].
  destruct (find (cityMatches (Str.trim input)) cities) as [c |] eqn:F.
  - apply find_some in F as [Hin _].
    destruct H as [H | [H | []]]; [| discriminate].
    injection H as <- <- <-. now exists c.
  - destruct H as [H | []]. discriminate.
Qed.

Lemma query_without_comma_is_a_city_lookup_witness :
  Str.allb notComma (Str.trim (Str.units "lahore 31.5 74.3")) = true
  /\ Search.coordMatch (Str.trim (Str.units "lahore 31.5 74.3")) = None
  /\ forall la lo zoom,
       In (SetView la lo zoom)
         (@searchLocationIn exampleBuiltins majorCities
            (Str.units "lahore 31.5 74.3")) ->
       exists c, In c majorCities /\ la = lat c /\ lo = lon c
                 /\ zoom = 10%nat.
Proof.
  assert (H : Str.allb notComma (Str.trim (Str.units "lahore 31.5 74.3"))
              = true)
    by reflexivity.
  split; [exact H |].
  exact (@query_without_comma_is_a_city_lookup exampleBuiltins majorCities
           (Str.units "lahore 31.5 74.3") H).
Defined.

(** ** The second number is read to its end *)

Section LongestFacts.
Local Open Scope list_scope.

Lemma scanUnsigned_rest (s g rest : list N) :
  Search.scanUnsigned s = Some (g, rest) ->
  Regex.headIs Str.isDigit rest = false.
Proof.
  unfold Search.scanUnsigned.
  destruct (Str.span Str.isDigit s) as [ds s2].
  destruct ds as [| d ds]; [discriminate |].
  destruct (Str.stripChar Str.dot s2) as [r |].
  - pose proof (span_rest_head Str.isDigit r) as H.
    destruct (Str.span Str.isDigit r) as [fs s4]. now intros [= <- <-].
  - pose proof (span_rest_head Str.isDigit s2) as H.
    destruct (Str.span Str.isDigit s2) as [fs s4]. now intros [= <- <-].
Qed.

Lemma scanNumber_rest (s g rest : list N) :
  Search.scanNumber s = Some (g, rest) ->
  Regex.headIs Str.isDigit rest = false.
Proof.
  unfold Search.scanNumber. destruct (Str.stripChar Str.minus s) as [r |].
  - destruct (Search.scanUnsigned r) as [[g' rest'] |] eqn:U;
      [| discriminate].
    intros [= <- <-]. exact (scanUnsigned_rest _ _ _ U).
  - apply scanUnsigned_rest.
Qed.

(** A greedy class takes the units of the class that lead the text, and
    goes on. *)
Lemma span_app_all (p : N -> bool) (ds z : list N) :
  Str.allb p ds = true ->
  Str.span p (ds ++ z)
  = (ds ++ fst (Str.span p z), snd (Str.span p z)).
Proof.
  intros A. induction ds as [| c ds IH]; cbn [app].
  - now destruct (Str.span p z).
  - simpl in A. apply andb_true_iff in A as [Hc A].
    rewrite span_cons_true by assumption. now rewrite (IH A).
Qed.

(** The scan reads past every number that starts the text. *)
Lemma scanUnsigned_prefix (u y g rest : list N) :
  Search.unsignedText u ->
  Search.scanUnsigned (u ++ y) = Some (g, rest) ->
  exists t, g = u ++ t.
Proof.
  intros (ds & frac & -> & Hh & Hd & Hf). unfold Search.scanUnsigned.
  rewrite append_assoc, (span_app_all Str.isDigit ds (frac ++ y) Hd).
  destruct ds as [| d ds]; [discriminate |]. cbn [app].
  destruct Hf as [-> | (fs & -> & Hfs)].
  - cbn [app].
    destruct (Str.stripChar Str.dot (snd (Str.span Str.isDigit y)))
      as [r |];
      destruct (Str.span Str.isDigit _) as [fs s4] in |- *;
      intros [= <- _]; rewrite append_nil_r.
    + exists (fst (Str.span Str.isDigit y) ++ [Str.dot] ++ fs).
      cbn [app]. now rewrite append_assoc.
    + exists (fst (Str.span Str.isDigit y) ++ [] ++ fs).
      cbn [app]. now rewrite append_assoc.
  - cbn [app]. rewrite span_head_false by reflexivity. cbn [fst snd].
    strip_step.
    rewrite (span_app_all Str.isDigit fs y Hfs).
    intros [= <- _]. exists (fst (Str.span Str.isDigit y)).
    rewrite append_nil_r. cbn [app].
    now rewrite !append_assoc.
Qed.

Lemma scanNumber_prefix (b y g rest : list N) :
  Search.numberText b ->
  Search.scanNumber (b ++ y) = Some (g, rest) ->
  exists t, g = b ++ t.
Proof.
  unfold Search.scanNumber. intros [Hu | (u & -> & Hu)].
  - pose proof (unsignedText_head b y Hu) as Hh.
    rewrite (stripChar_digit_head Str.minus _ digit_not_minus Hh).
    now apply scanUnsigned_prefix.
  - strip_step.
    destruct (Search.scanUnsigned (u ++ y)) as [[g' rest'] |] eqn:U;
      [| discriminate].
    intros [= <- _].
    destruct (scanUnsigned_prefix u y g' rest' Hu U) as [t ->].
    now exists t.
Qed.

(** The number the scan reads is the longest at its place: no longer
    prefix of the text is a number. *)
Lemma scanNumber_longest (s g rest x y : list N) :
  Search.scanNumber s = Some (g, rest) ->
  rest = x ++ y -> x <> [] -> ~ Search.numberText (g ++ x).
Proof.
  intros Hs -> Hx Hn.
  pose proof (scanNumber_split _ _ _ Hs) as E.
  rewrite E, <- append_assoc in Hs.
  destruct (scanNumber_prefix (g ++ x) y g (x ++ y) Hn Hs) as [t Ht].
  apply (f_equal (@List.length N)) in Ht.
  rewrite !length_append in Ht.
  destruct x as [| c x]; [now apply Hx | cbn [List.length] in Ht; lia].
Qed.

Lemma scanAt_rest (s a b : list N) :
  Search.scanAt s = Some (a, b) ->
  exists ws post : list N,
    s = a ++ [Str.comma] ++ ws ++ b ++ post
    /\ Str.allb Str.isSpace ws = true
    /\ Regex.headIs Str.isDigit post = false
    /\ forall x y, post = x ++ y -> x <> [] -> ~ Search.numberText (b ++ x).
Proof.
  unfold Search.scanAt.
  destruct (Search.scanNumber s) as [[g1 rest] |] eqn:N1; [| discriminate].
  destruct (Str.stripChar Str.comma rest) as [r |] eqn:S; [| discriminate].
  destruct (Search.scanNumber (snd (Str.span Str.isSpace r)))
    as [[g2 rest2] |] eqn:N2; [| discriminate].
  intros [= <- <-].
  exists (fst (Str.span Str.isSpace r)), rest2.
  split; [| split; [apply span_all
                   | split; [exact (scanNumber_rest _ _ _ N2) |]]].
  - cbn [app]. rewrite (scanNumber_split _ _ _ N1) at 1.
    apply stripChar_head in S. subst rest.
    rewrite (span_split Str.isSpace r) at 1.
    now rewrite (scanNumber_split _ _ _ N2) at 1.
  - intros x y. exact (scanNumber_longest _ _ _ x y N2).
Qed.

Lemma scan_rest (s a b : list N) :
  Search.scan s = Some (a, b) ->
  exists pre ws post : list N,
    s = pre ++ a ++ [Str.comma] ++ ws ++ b ++ post
    /\ Str.allb Str.isSpace ws = true
    /\ Regex.headIs Str.isDigit post = false
    /\ forall x y, post = x ++ y -> x <> [] -> ~ Search.numberText (b ++ x).
Proof.
  induction s as [| c r IH]; rewrite scan_unfold.
  - destruct (Search.scanAt []) as [m |] eqn:E; [| discriminate].
    intros [= ->]. exists []. now apply scanAt_rest.
  - destruct (Search.scanAt (c :: r)) as [m |] eqn:E.
    + intros [= ->]. exists []. now apply scanAt_rest.
    + intros H. destruct (IH H) as (pre & ws & post & -> & Hp).
      now exists (c :: pre), ws, post.
Qed.

End LongestFacts.

(** X13 -- Whenever the pattern matches a query, its two groups are the
    numbers [a] and [b] of an occurrence of [a], a comma, blanks and [b]
    in the query, and the second number is read to its end: what follows
    [b] does not start with a digit, and no longer stretch of the query
    from the start of [b] is a number (so [b] is not cut at its point
    either). *)
Theorem second_number_is_read_to_its_end
  (query : list N) (m : Regex.captures) :
  Search.coordMatch query = Some m ->
  exists pre a ws b post : list N,
    m = Search.capturesOf (a, b)
    /\ Regex.group 1 m = Some a /\ Regex.group 2 m = Some b
    /\ query = (pre ++ a ++ [Str.comma] ++ ws ++ b ++ post)%list
    /\ Search.numberText a
    /\ Str.allb Str.isSpace ws = true
    /\ Search.numberText b
    /\ Regex.headIs Str.isDigit post = false
    /\ forall x y : list N,
         post = (x ++ y)%list -> x <> [] ->
         ~ Search.numberText (b ++ x)%list.
Proof.
  rewrite coordMatch_scan.
  destruct (Search.scan query) as [[a b] |] eqn:S; [| discriminate].
  intros [= <-].
  destruct (scan_rest _ _ _ S) as (pre & ws & post & E & Hw & Hp & Hl).
  destruct (scan_sound _ _ _ S) as (pre' & ws' & post' & _ & Ha & _ & Hb).
  exists pre, a, ws, b, post. repeat split; assumption.
Qed.

Lemma second_number_is_read_to_its_end_witness :
  Search.coordMatch (Str.units "at 30.5, 70.25.5km")
  = Some [(2%nat, Str.units "70.25"); (1%nat, Str.units "30.5")]
  /\ exists pre a ws b post : list N,
       [(2%nat, Str.units "70.25"); (1%nat, Str.units "30.5")]
       = Search.capturesOf (a, b)
       /\ Regex.group 1
            [(2%nat, Str.units "70.25"); (1%nat, Str.units "30.5")]
          = Some a
       /\ Regex.group 2
            [(2%nat, Str.units "70.25"); (1%nat, Str.units "30.5")]
          = Some b
       /\ Str.units "at 30.5, 70.25.5km"
          = (pre ++ a ++ [Str.comma] ++ ws ++ b ++ post)%list
       /\ Search.numberText a
       /\ Str.allb Str.isSpace ws = true
       /\ Search.numberText b
       /\ Regex.headIs Str.isDigit post = false
       /\ forall x y : list N,
            post = (x ++ y)%list -> x <> [] ->
            ~ Search.numberText (b ++ x)%list.
Proof.
  assert (H : Search.coordMatch (Str.units "at 30.5, 70.25.5km")
              = Some [(2%nat, Str.units "70.25");
                      (1%nat, Str.units "30.5")]) by reflexivity.
  split; [exact H |].
  exact (second_number_is_read_to_its_end
           (Str.units "at 30.5, 70.25.5km") _ H).
Defined.

(** ** A negative number is always out of bounds *)

Lemma digitsValue_nonneg (s : list N) :
  forall acc : Z, (0 <= acc)%Z -> (0 <= Search.digitsValue acc s)%Z.
Proof.
  induction s as [| c s IH]; intros acc H; cbn [Search.digitsValue];
    [exact H | apply IH; lia].
Qed.

(** The decimal of a text with a minus sign is not positive. *)
Lemma decimalValue_minus (t : list N) (q : Q) :
  Search.decimalValue (Str.minus :: t) = Some q -> (q <= 0)%Q.
Proof.
  unfold Search.decimalValue. strip_step.
  destruct (Str.span Str.isDigit t) as [ip s2].
  destruct ip as [| d ip]; [discriminate |].
  intros [= <-].
  set (i := Search.digitsValue 0 (d :: ip)).
  set (f := Search.digitsValue 0 _).
  set (den := Pos.pow 10 _).
  assert (Hi : (0 <= i)%Z) by (apply digitsValue_nonneg; lia).
  assert (Hf : (0 <= f)%Z) by (apply digitsValue_nonneg; lia).
  apply (Qopp_le_compat 0 (Qplus (inject_Z i) (Qmake f den))).
  apply (Qplus_le_compat 0 (inject_Z i) 0 (Qmake f den));
    unfold Qle, inject_Z; cbn [Qnum Qden]; lia.
Qed.

Lemma parseFloat_minus {B : Builtins} (t : list N) (q : Q) :
  (forall d : Q, (d <= 0)%Q -> (Number_ofDecimal d <= 0)%Q) ->
  Search.parseFloat (Str.minus :: t) = Some q -> (q <= 0)%Q.
Proof.
  intros Hsign. unfold Search.parseFloat.
  destruct (Search.decimalValue (Str.minus :: t)) as [d |] eqn:D;
    [| discriminate].
  intros [= <-]. apply Hsign. exact (decimalValue_minus t d D).
Qed.

(** *** The sample reading of decimals keeps the sign *)

Lemma roundDiv_nonneg (n d : Z) :
  (0 <= n)%Z -> (0 < d)%Z -> (0 <= Binary64.roundDiv n d)%Z.
Proof.
  intros Hn Hd. unfold Binary64.roundDiv.
  pose proof (Z.div_pos n d Hn Hd) as Hk.
  destruct (2 * (n mod d) ?= d)%Z; [destruct (Z.even (n / d)) | |]; lia.
Qed.

Lemma nearestTo_nonneg (base n d k : Z) :
  (0 < base)%Z -> (0 <= n)%Z -> (0 < d)%Z ->
  (0 <= Binary64.nearestTo base n d k)%Q.
Proof.
  intros Hb Hn Hd. unfold Binary64.nearestTo.
  destruct (Z.leb_spec 0 k) as [Hk | Hk].
  - assert (Hp : (0 < base ^ k)%Z) by now apply Z.pow_pos_nonneg.
    pose proof (roundDiv_nonneg n (d * base ^ k) Hn
                  (Z.mul_pos_pos _ _ Hd Hp)) as Hr.
    unfold Qle, inject_Z. cbn [Qnum Qden]. nia.
  - assert (Hp : (0 <= base ^ (- k))%Z) by (apply Z.pow_nonneg; lia).
    pose proof (roundDiv_nonneg (n * base ^ (- k)) d
                  (Z.mul_nonneg_nonneg _ _ Hn Hp) Hd) as Hr.
    unfold Qle. cbn [Qnum Qden]. lia.
Qed.

Lemma shortestFrom_nonneg (fuel : nat) (x : Q) :
  forall k : Z, (0 <= x)%Q -> (0 <= Binary64.shortestFrom fuel k x)%Q.
Proof.
  induction fuel as [| fuel IH]; intros k Hx; cbn [Binary64.shortestFrom];
    [exact Hx |].
  destruct (Z.ltb_spec 0
              (Qnum (Binary64.nearestTo 10 (Qnum x) (Z.pos (Qden x)) k)))
    as [Hc | Hc]; cbn [andb]; [| now apply IH].
  destruct (Qeq_bool _ x); [| now apply IH].
  unfold Qle. cbn [Qnum Qden]. lia.
Qed.

Lemma ofDecimal_sign (d : Q) :
  (d <= 0)%Q -> (Binary64.ofDecimal d <= 0)%Q.
Proof.
  intros Hd. unfold Binary64.ofDecimal. destruct d as [n den].
  unfold Qle in Hd. cbn [Qnum Qden] in *.
  destruct n as [| p | p]; [discriminate | lia |].
  apply (Qopp_le_compat 0). apply shortestFrom_nonneg.
  apply nearestTo_nonneg; [lia | cbn; lia | lia].
Qed.

Lemma inside_is_positive (la lo : Q) :
  GeoBounds.searchInside la lo = true -> (0 < la /\ 0 < lo)%Q.
Proof.
  unfold GeoBounds.searchInside, Num.geb. rewrite !andb_true_iff, !leb_le.
  intros [[[H1 _] H2] _]. split.
  - eapply Qlt_le_trans; [| exact H1]. reflexivity.
  - eapply Qlt_le_trans; [| exact H2]. reflexivity.
Qed.

(** X14 -- On an engine whose reading of a decimal keeps its sign (the
    number read from a decimal that is not positive is not positive, as
    rounding to the nearest double is): when the pattern matches the
    trimmed query and the text of either group starts with a minus sign,
    the handler always rejects the pair as out of bounds and leaves the
    map alone, whatever the other number and the registry are. *)
Theorem negative_coordinates_are_rejected
  {B : Builtins} (cities : list city) (input t : list N)
  (m : Regex.captures) :
  (forall d : Q, (d <= 0)%Q -> (Number_ofDecimal d <= 0)%Q) ->
  Search.coordMatch (Str.trim input) = Some m ->
  Regex.group 1 m = Some (Str.minus :: t)
  \/ Regex.group 2 m = Some (Str.minus :: t) ->
  searchLocationIn cities input
  = [ PreventDefault;
      Alert "Coordinates outside Pakistan boundaries!";
      ClearSearchInput ].
Proof.
  intros Hsign Hm Hneg.
  assert (Hne : Str.isEmpty (Str.trim input) = false).
  { destruct (Str.trim input); [discriminate Hm | reflexivity]. }
  unfold searchLocationIn. rewrite Hne, Hm. unfold Search.parseGroup.
  destruct Hneg as [G | G]; rewrite G.
  - destruct (Search.parseFloat (Str.minus :: t)) as [la |] eqn:P;
      [| reflexivity].
    destruct (match Regex.group 2 m with
              | Some t0 => Search.parseFloat t0
              | None => None
              end) as [lo |]; [| reflexivity].
    destruct (GeoBounds.searchInside la lo) eqn:I; [| reflexivity].
    exfalso. apply inside_is_positive in I as [I _].
    apply (parseFloat_minus _ _ Hsign) in P. exact (Qlt_not_le _ _ I P).
  - destruct (match Regex.group 1 m with
              | Some t0 => Search.parseFloat t0
              | None => None
              end) as [la |]; [| reflexivity].
    destruct (Search.parseFloat (Str.minus :: t)) as [lo |] eqn:P;
      [| reflexivity].
    destruct (GeoBounds.searchInside la lo) eqn:I; [| reflexivity].
    exfalso. apply inside_is_positive in I as [_ I].
    apply (parseFloat_minus _ _ Hsign) in P. exact (Qlt_not_le _ _ I P).
Qed.

Lemma negative_coordinates_are_rejected_witness :
  (forall d : Q,
      (d <= 0)%Q -> (@Number_ofDecimal exampleBuiltins d <= 0)%Q)
  /\ Search.coordMatch
       (Str.trim (Str.units "30.2," ++ 160%N :: Str.units "-70.1"))
     = Some [(2%nat, Str.units "-70.1"); (1%nat, Str.units "30.2")]
  /\ @searchLocationIn exampleBuiltins majorCities
       (Str.units "30.2," ++ 160%N :: Str.units "-70.1")
     = [ PreventDefault;
         Alert "Coordinates outside Pakistan boundaries!";
         ClearSearchInput ].
Proof.
  assert (Hsign : forall d : Q,
             (d <= 0)%Q -> (@Number_ofDecimal exampleBuiltins d <= 0)%Q)
    by exact ofDecimal_sign.
  assert (H : Search.coordMatch
                (Str.trim (Str.units "30.2," ++ 160%N :: Str.units "-70.1"))
              = Some [(2%nat, Str.units "-70.1");
                      (1%nat, Str.units "30.2")]) by reflexivity.
  split; [exact Hsign | split; [exact H |]].
  apply (@negative_coordinates_are_rejected exampleBuiltins majorCities
           (Str.units "30.2," ++ 160%N :: Str.units "-70.1")
           (Str.units "70.1") _ Hsign H).
  right. reflexivity.
Defined.

(** ** The search ignores the case of letters *)

Lemma bool_both_false (a b : bool) : a <> true -> b <> true -> a = b.
Proof. destruct a, b; congruence. Qed.

Lemma lowerChar_facts (c : N) :
  Str.isDigit (Str.lowerChar c) = Str.isDigit c
  /\ Str.isSpace (Str.lowerChar c) = Str.isSpace c
  /\ N.eqb Str.minus (Str.lowerChar c) = N.eqb Str.minus c
  /\ N.eqb Str.dot (Str.lowerChar c) = N.eqb Str.dot c
  /\ N.eqb Str.comma (Str.lowerChar c) = N.eqb Str.comma c
  /\ Str.lowerChar (Str.lowerChar c) = Str.lowerChar c
  /\ (Str.isDigit c = true -> Str.lowerChar c = c).
Proof.
  destruct (lowerChar_cases c) as [[H E] | [[-> E] | (H & H' & E)]].
  - rewrite E. repeat split.
    + apply bool_both_false; rewrite isDigit_iff; lia.
    + apply bool_both_false; rewrite isSpace_iff; lia.
    + apply bool_both_false; rewrite N.eqb_eq; unfold Str.minus; lia.
    + apply bool_both_false; rewrite N.eqb_eq; unfold Str.dot; lia.
    + apply bool_both_false; rewrite N.eqb_eq; unfold Str.comma; lia.
    + destruct (lowerChar_cases (c + 32))
        as [[H2 _] | [[H2 _] | (_ & _ & E2)]]; [lia | lia | exact E2].
    + intros D. apply isDigit_iff in D. lia.
  - vm_compute. repeat split; intros; solve [reflexivity | discriminate].
  - rewrite !E. repeat split; reflexivity.
Qed.

Lemma caseBlind_digit : caseBlind Str.isDigit.
Proof. intros c. now destruct (lowerChar_facts c) as (H & _). Qed.

Lemma caseBlind_space : caseBlind Str.isSpace.
Proof. intros c. now destruct (lowerChar_facts c) as (_ & H & _). Qed.

Lemma lower_empty (s : list N) :
  Str.isEmpty (Str.toLowerCase s) = Str.isEmpty s.
Proof. now destruct s. Qed.

Lemma lower_idempotent (s : list N) :
  Str.toLowerCase (Str.toLowerCase s) = Str.toLowerCase s.
Proof.
  unfold Str.toLowerCase.
  induction s as [| c s IH]; [reflexivity |]. cbn [List.map].
  rewrite IH. f_equal.
  now destruct (lowerChar_facts c) as (_ & _ & _ & _ & _ & H & _).
Qed.

Lemma dropWhile_lower (p : N -> bool) (s : list N) :
  caseBlind p ->
  Str.dropWhile p (Str.toLowerCase s) = Str.toLowerCase (Str.dropWhile p s).
Proof.
  unfold Str.toLowerCase.
  intros Hp. induction s as [| c s IH]; [reflexivity |].
  cbn [List.map Str.dropWhile]. rewrite Hp.
  now destruct (p c).
Qed.

Lemma dropWhileEnd_lower (p : N -> bool) (s : list N) :
  caseBlind p ->
  Str.dropWhileEnd p (Str.toLowerCase s)
  = Str.toLowerCase (Str.dropWhileEnd p s).
Proof.
  unfold Str.toLowerCase.
  intros Hp. induction s as [| c s IH]; [reflexivity |].
  cbn [List.map Str.dropWhileEnd]. rewrite IH, Hp.
  destruct (Str.dropWhileEnd p s); cbn [List.map];
    [now destruct (p c) | reflexivity].
Qed.

Lemma trim_lower (s : list N) :
  Str.trim (Str.toLowerCase s) = Str.toLowerCase (Str.trim s).
Proof.
  unfold Str.trim.
  now rewrite (dropWhile_lower _ _ caseBlind_space),
    (dropWhileEnd_lower _ _ caseBlind_space).
Qed.

Lemma span_digit_lower (s : list N) :
  Str.span Str.isDigit (Str.toLowerCase s)
  = (fst (Str.span Str.isDigit s),
     Str.toLowerCase (snd (Str.span Str.isDigit s))).
Proof.
  unfold Str.toLowerCase.
  induction s as [| c s IH]; [reflexivity |].
  cbn [List.map Str.span].
  destruct (lowerChar_facts c) as (Hd & _ & _ & _ & _ & _ & Hfix).
  rewrite Hd. destruct (Str.isDigit c) eqn:D; [| reflexivity].
  rewrite IH, (Hfix eq_refl). now destruct (Str.span Str.isDigit s).
Qed.

Lemma span_space_lower_snd (s : list N) :
  snd (Str.span Str.isSpace (Str.toLowerCase s))
  = Str.toLowerCase (snd (Str.span Str.isSpace s)).
Proof.
  unfold Str.toLowerCase.
  induction s as [| c s IH]; [reflexivity |].
  cbn [List.map Str.span]. rewrite caseBlind_space.
  destruct (Str.isSpace c); [| reflexivity].
  destruct (Str.span Str.isSpace s), (Str.span Str.isSpace _).
  exact IH.
Qed.

(** [stripChar] of one of the punctuation marks of the pattern. *)
Lemma stripChar_lower (ch : N) (s : list N) :
  (forall c, N.eqb ch (Str.lowerChar c) = N.eqb ch c) ->
  Str.stripChar ch (Str.toLowerCase s)
  = option_map Str.toLowerCase (Str.stripChar ch s).
Proof.
  unfold Str.toLowerCase.
  intros H. destruct s as [| c s]; [reflexivity |].
  cbn [List.map Str.stripChar]. rewrite H.
  now destruct (N.eqb ch c).
Qed.

Lemma scanUnsigned_lower (s : list N) :
  Search.scanUnsigned (Str.toLowerCase s)
  = option_map (fun m => (fst m, Str.toLowerCase (snd m)))
      (Search.scanUnsigned s).
Proof.
  unfold Search.scanUnsigned. rewrite span_digit_lower.
  destruct (Str.span Str.isDigit s) as [ds s2]. cbn [fst snd].
  destruct ds as [| d ds]; [reflexivity |].
  rewrite (stripChar_lower Str.dot s2 (fun c => proj1 (proj2 (proj2 (proj2
             (lowerChar_facts c)))))).
  destruct (Str.stripChar Str.dot s2) as [r |]; cbn [option_map];
    rewrite span_digit_lower;
    now destruct (Str.span Str.isDigit _).
Qed.

Lemma scanNumber_lower (s : list N) :
  Search.scanNumber (Str.toLowerCase s)
  = option_map (fun m => (fst m, Str.toLowerCase (snd m)))
      (Search.scanNumber s).
Proof.
  unfold Search.scanNumber.
  rewrite (stripChar_lower Str.minus s (fun c => proj1 (proj2 (proj2
             (lowerChar_facts c))))).
  destruct (Str.stripChar Str.minus s) as [r |]; cbn [option_map];
    rewrite scanUnsigned_lower;
    now destruct (Search.scanUnsigned _) as [[g rest] |].
Qed.

Lemma scanAt_lower (s : list N) :
  Search.scanAt (Str.toLowerCase s) = Search.scanAt s.
Proof.
  unfold Search.scanAt. rewrite scanNumber_lower.
  destruct (Search.scanNumber s) as [[g1 rest] |]; [| reflexivity].
  cbn [option_map fst snd].
  rewrite (stripChar_lower Str.comma rest (fun c => proj1 (proj2 (proj2 (proj2
             (proj2 (lowerChar_facts c))))))).
  destruct (Str.stripChar Str.comma rest) as [r |]; [| reflexivity].
  cbn [option_map]. rewrite span_space_lower_snd, scanNumber_lower.
  now destruct (Search.scanNumber _) as [[g2 rest2] |].
Qed.

Lemma scan_lower (s : list N) :
  Search.scan (Str.toLowerCase s) = Search.scan s.
Proof.
  induction s as [| c s IH]; [reflexivity |].
  change (Str.toLowerCase (c :: s))
    with (Str.lowerChar c :: Str.toLowerCase s) at 1.
  rewrite (scan_unfold (c :: s)), scan_unfold.
  change (Str.lowerChar c :: Str.toLowerCase s)
    with (Str.toLowerCase (c :: s)).
  rewrite scanAt_lower.
  destruct (Search.scanAt (c :: s)); [reflexivity | exact IH].
Qed.

Lemma find_same {A : Type} (f g : A -> bool) (l : list A) :
  (forall x, f x = g x) -> List.find f l = List.find g l.
Proof.
  intros H. induction l as [| x l IH]; [reflexivity |].
  cbn [find]. now rewrite H, IH.
Qed.

(** X15 -- Putting the text of the search box in lower case changes
    nothing to what the handler does, for every registry: the pattern
    finds the same pair (its characters have no case) and the city
    lookup compares lower-cased texts. *)
Theorem search_ignores_case
  {B : Builtins} (cities : list city) (input : list N) :
  searchLocationIn cities (Str.toLowerCase input)
  = searchLocationIn cities input.
Proof.
  unfold searchLocationIn.
  rewrite trim_lower, lower_empty, !coordMatch_scan, scan_lower.
  destruct (Str.isEmpty (Str.trim input)); [reflexivity |].
  destruct (Search.scan (Str.trim input)); [reflexivity |].
  cbn [option_map].
  rewrite (find_same (cityMatches (Str.toLowerCase (Str.trim input)))
             (cityMatches (Str.trim input))); [reflexivity |].
  intros c. unfold cityMatches. now rewrite lower_idempotent.
Qed.

(** ** The pulsing markers *)

Lemma pulse_twice : pulse (pulse initialRadius) = initialRadius.
Proof. reflexivity. Qed.

(** X16 -- A city marker starts with radius 8; every tick of its timer
    toggles the radius, so after an even number of ticks it is 8 and
    after an odd number 12, for ever. From any radius whatever, one tick
    gives 8 or 12. The period of the timer lies between 2000 and 3000
    milliseconds, both included (a draw next to 1 can round to 3000). *)
Theorem marker_radius_alternates (ticks : nat) (radius r : Q) :
  (0 <= r /\ r < 1)%Q ->
  Nat.iter (2 * ticks) pulse initialRadius = 8%Q
  /\ Nat.iter (2 * ticks + 1) pulse initialRadius = 12%Q
  /\ (pulse radius = 8%Q \/ pulse radius = 12%Q)
  /\ (2000 <= pulseInterval r /\ pulseInterval r <= 3000)%Q.
Proof.
  intros [H0 H1].
  assert (E : Nat.iter (2 * ticks) pulse initialRadius = 8%Q).
  { induction ticks as [| n IH]; [reflexivity |].
    replace (2 * S n)%nat with (S (S (2 * n))) by lia.
    cbn [Nat.iter nat_rect]. unfold Nat.iter in IH. now rewrite IH. }
  split; [exact E | split; [| split]].
  - replace (2 * ticks + 1)%nat with (S (2 * ticks)) by lia.
    cbn [Nat.iter nat_rect]. unfold Nat.iter in E. now rewrite E.
  - unfold pulse. destruct (Qeq_bool radius 8); [now right | now left].
  - unfold pulseInterval.
    pose proof (scaled_unit_strict 2000 1000 r eq_refl H0 H1) as [Hlo Hhi].
    split; [exact Hlo | apply Qlt_le_weak; exact Hhi].
Qed.

Lemma marker_radius_alternates_witness :
  (0 <= 1 # 4 /\ 1 # 4 < 1)%Q
  /\ Nat.iter (2 * 3) pulse initialRadius = 8%Q
  /\ Nat.iter (2 * 3 + 1) pulse initialRadius = 12%Q
  /\ (pulse 10 = 8%Q \/ pulse 10 = 12%Q)
  /\ (2000 <= pulseInterval (1 # 4) /\ pulseInterval (1 # 4) <= 3000)%Q.
Proof.
  assert (H : (0 <= 1 # 4 /\ 1 # 4 < 1)%Q)
    by (split; [discriminate | reflexivity]).
  split; [exact H |].
  exact (marker_radius_alternates 3 10 (1 # 4) H).
Defined.

(** ** The geofence and what is drawn on the map *)

(** X17 -- Every vertex of every province ring and every registered city
    passes both geofence tests, so a marker or a ring corner can always
    be clicked; every ring is closed; and the geofence is the bounding
    box of the rings: each of its four bounds is the coordinate of a
    vertex. *)
Theorem geofence_bounds_the_map :
  (forall (f : feature) (v : Q * Q),
      In f pakistanProvinces -> In v (ring f) ->
      GeoBounds.searchInside (snd v) (fst v) = true
      /\ GeoBounds.clickOutside (snd v) (fst v) = false)
  /\ (forall c : city,
        In c majorCities ->
        GeoBounds.searchInside (lat c) (lon c) = true
        /\ GeoBounds.clickOutside (lat c) (lon c) = false)
  /\ (forall f : feature,
        In f pakistanProvinces ->
        List.hd_error (ring f) = List.hd_error (List.rev (ring f)))
  /\ (forall bound : Q,
        In bound [23.69; 36.98]%Q ->
        exists f v, In f pakistanProvinces /\ In v (ring f)
                    /\ snd v = bound)
  /\ (forall bound : Q,
        In bound [60.87; 75.85]%Q ->
        exists f v, In f pakistanProvinces /\ In v (ring f)
                    /\ fst v = bound).
Proof.
  split; [| split; [| split; [| split]]].
  - intros f v Hf Hv. simpl in Hf.
    repeat (destruct Hf as [<- | Hf];
            [ simpl in Hv;
              repeat (destruct Hv as [<- | Hv]; [now split |]);
              destruct Hv |]).
    destruct Hf.
  - intros c Hc. pose proof (cities_inside c Hc) as E.
    split; [exact E | now rewrite clickOutside_negb, E].
  - intros f Hf. simpl in Hf.
    repeat (destruct Hf as [<- | Hf]; [reflexivity |]). destruct Hf.
  - intros bound [<- | [<- | []]].
    + exists (List.nth 1 pakistanProvinces
                {| featureName := ""; ring := [] |}), (66.50, 23.69)%Q.
      cbn. auto.
    + exists (List.nth 2 pakistanProvinces
                {| featureName := ""; ring := [] |}), (73.16, 36.98)%Q.
      cbn. auto 10.
  - intros bound [<- | [<- | []]].
    + exists (List.nth 3 pakistanProvinces
                {| featureName := ""; ring := [] |}), (60.87, 23.69)%Q.
      cbn. auto 10.
    + exists (List.nth 0 pakistanProvinces
                {| featureName := ""; ring := [] |}), (75.85, 27.72)%Q.
      cbn. auto.
Qed.

(** ** Searching, then clicking *)


